(** * IntelliSQL: a verification model of [app.py]

    The program asks a hosted language model to turn an English question
    into SQL, strips markdown fences from the reply, runs the statement on a
    SQLite file through Python's [sqlite3] module and shows the rows in a
    Streamlit page.

    Python strings are sequences of Unicode code points; program state is
    threaded explicitly through a state-and-exception monad; the SQL engine
    is an interface, with a small reference interpreter as an instance. *)

From Stdlib Require Import NArith ZArith String Ascii List Lia.
From stdpp Require Import base option list gmap.
Import ListNotations.
Open Scope N_scope.

(** ** Python [str] *)

(** A Python string: the list of its code points. *)
Abbreviation str := (list N).

(** An ASCII literal of the source as a Python string. *)
Definition py (s : string) : str := map N_of_ascii (list_ascii_of_string s).

(** [str.isspace] on one code point: the characters [str.strip()] removes. *)
Definition isspace (c : N) : bool :=
  ((9 <=? c) && (c <=? 13)) || ((28 <=? c) && (c <=? 32))
  || (c =? 133) || (c =? 160) || (c =? 5760)
  || ((8192 <=? c) && (c <=? 8202))
  || (c =? 8232) || (c =? 8233) || (c =? 8239) || (c =? 8287) || (c =? 12288).

Fixpoint lstrip (s : str) : str :=
  match s with
  | c :: s' => if isspace c then lstrip s' else s
  | [] => []
  end.

Definition rstrip (s : str) : str := reverse (lstrip (reverse s)).

(** [s.strip()] *)
Definition strip (s : str) : str := rstrip (lstrip s).

(** [s.startswith(p)] *)
Fixpoint startswith (p s : str) : bool :=
  match p, s with
  | [], _ => true
  | a :: p', b :: s' => (a =? b) && startswith p' s'
  | _ :: _, [] => false
  end.

(** [p in s] *)
Fixpoint contains (p s : str) : bool :=
  startswith p s || match s with [] => false | _ :: s' => contains p s' end.

(** The scan of [str.replace]: left to right, occurrences do not overlap.
    [skip] counts the characters of a matched occurrence still to pass. *)
Fixpoint replace_from (old new : str) (skip : nat) (s : str) : str :=
  match s with
  | [] => []
  | c :: s' =>
      match skip with
      | S k => replace_from old new k s'
      | O => if startswith old s
             then new ++ replace_from old new (length old - 1) s'
             else c :: replace_from old new 0 s'
      end
  end.

(** [s.replace(old, new)]; an empty [old] matches between all characters. *)
Definition replace (old new s : str) : str :=
  match old with
  | [] => new ++ flat_map (fun c => c :: new) s
  | _ :: _ => replace_from old new 0 s
  end.

Definition backtick : N := 96.
Definition newline : N := 10.
Definition fence : str := py "```".
Definition fence_sql : str := py "```sql".

(** A reply in a fenced code block: opening fence, language tag, the body on
    its own lines, closing fence. *)
Definition fenced_response (tag body : str) : str :=
  fence ++ tag ++ [newline] ++ body ++ [newline] ++ fence.

(** ASCII case folding, as [PyOS_strnicmp] and SQL keywords compare. *)
Definition lower (c : N) : N := if (65 <=? c) && (c <=? 90) then c + 32 else c.

Definition istartswith (p s : str) : bool := startswith (map lower p) (map lower s).

(** ** Python values and exceptions *)

(** A value in a result row ([REAL] and [BLOB] columns are left out). *)
Inductive value :=
| VNull
| VInt (z : Z)
| VText (s : str).

(** One result row, a Python tuple. *)
Abbreviation row := (list value).

(** The classes of the errors the libraries raise: [ValueError] of the
    generation client's reply object, the [sqlite3] errors, the errors of
    the generation service, and any other; each derives from [Exception]. *)
Inductive error_class :=
| ValueError
| OperationalError
| ProgrammingError
| IntegrityError
| GoogleAPIError
| OtherError (name : str).

(** An error object: its class and [str(e)]. *)
Record error := Error { error_class_of : error_class; error_str : str }.

(** What a library call comes to. *)
Inductive outcome (A : Type) :=
| Ok (a : A)
| Failed (e : error).
Arguments Ok {A} a.
Arguments Failed {A} e.

(** A raised exception: an error of a library, or the script-control
    exception of [st.stop()], which derives from [BaseException] only. *)
Inductive exn :=
| Failure (e : error)
| StopException.

(** [isinstance(e, Exception)] *)
Definition is_Exception (e : exn) : bool :=
  match e with
  | Failure _ => true
  | StopException => false
  end.

(** [str(e)] *)
Definition exn_str (e : exn) : str :=
  match e with
  | Failure err => error_str err
  | StopException => []
  end.

Inductive result (A : Type) :=
| Returned (a : A)
| Raised (e : exn).
Arguments Returned {A} a.
Arguments Raised {A} e.

(** ** The SQL text scans of the [sqlite3] module *)

Inductive scan_mode := Normal | LineComment | BlockComment.

(** [lstrip_sql]: the text from its first character that is neither blank
    nor inside a comment; empty when there is none. *)
Fixpoint lstrip_sql_from (mode : scan_mode) (s : str) : str :=
  match s with
  | [] => []
  | c :: s' =>
      match mode with
      | LineComment =>
          if c =? 10 then lstrip_sql_from Normal s' else lstrip_sql_from LineComment s'
      | BlockComment =>
          match s' with
          | d :: s'' =>
              if (c =? 42) && (d =? 47) then lstrip_sql_from Normal s''
              else lstrip_sql_from BlockComment s'
          | [] => []
          end
      | Normal =>
          if (c =? 32) || (c =? 9) || (c =? 12) || (c =? 10) || (c =? 13)
          then lstrip_sql_from Normal s'
          else match s' with
               | d :: s'' =>
                   if (c =? 45) && (d =? 45) then lstrip_sql_from LineComment s''
                   else if (c =? 47) && (d =? 42) then lstrip_sql_from BlockComment s''
                   else s
               | [] => s
               end
      end
  end.

Definition lstrip_sql (s : str) : str := lstrip_sql_from Normal s.

(** The module opens a transaction before a statement whose first word is
    one of these four. *)
Definition is_dml (sql : str) : bool :=
  let p := lstrip_sql sql in
  istartswith (py "insert") p || istartswith (py "update") p
  || istartswith (py "delete") p || istartswith (py "replace") p.

(** ** The SQL engine behind [sqlite3]

    [prepare] compiles the first statement of a text against the database it
    will run on and returns it with the text that follows it ([None] for a
    text without a statement); [run] steps a statement to its end and gives
    the rows it produced, the database it leaves and the error that stopped
    it, if one did.  The last argument of [run] is what the statement draws
    from outside the database (random(), the clock).  A statement that fails
    may leave part of what it wrote (INSERT OR FAIL). *)
Class Engine := {
  db : Type;
  stmt : Type;
  empty_db : db;
  prepare : db -> str -> outcome (option stmt * str);
  run : stmt -> db -> nat -> list row * db * option error
}.

(** ** Observable calls *)

Inductive event :=
| LoadDotenv
| Configure (api_key : str)
| GenerativeModel (name : str)
| GenerateContent (prompt : str)
| Connect (path : str) (h : nat)
| ConnectFailed (path : str)
| Execute (h : nat) (sql : str)
| Fetchall (h : nat)
| Close (h : nat)
| StError (msg : str)
| StStop
| StSuccess (msg : str)
| StCode (body language : str)
| StSubheader (body : str)
| StTable (data : list row)
| StMarkdown (body : str) (unsafe_allow_html : bool)
| StImage (url : str) (width : N)
| StTextInput (label : str)
| StButton (label : str)
| StSetPageConfig (page_title page_icon layout : str)
| StSidebarTitle (body : str)
| StSidebarRadio (label : str) (options : list str).

(** What the user has set in the widgets when the script runs. *)
Record session := {
  radio_choice : str;
  text_input : str;
  button_pressed : bool
}.

(** The reply object of the generation client; reading [.text] raises when
    the reply holds no text part. *)
Record response := { response_text : outcome str }.

Section Program.
Context `{Engine}.

(** An open connection: its file, the uncommitted database of its pending
    transaction (if one is open), and the rows and the late error its cursor
    still has to deliver. *)
Record connection := {
  conn_path : str;
  conn_txn : option db;
  conn_rows : list row;
  conn_error : option error
}.

Record world := {
  environ : gmap str str;           (* os.environ *)
  dotenv_file : gmap str str;       (* the assignments in .env *)
  widgets : session;
  genai_service : nat -> str -> outcome response;
                                    (* the endpoint's answer to the n-th request *)
  requests : nat;                   (* requests sent so far *)
  openable : str -> bool;           (* the paths a database can be opened at *)
  entropy : nat -> nat;             (* what the n-th statement run draws from
                                       outside the database *)
  files : gmap str db;              (* database files by path *)
  conns : gmap nat connection;      (* open connections by handle *)
  next_handle : nat;
  statements_run : nat;             (* statements handed to the engine to run *)
  trace : list event
}.

(** State and exceptions. *)
Definition M (A : Type) : Type := world -> result A * world.

#[export] Instance M_ret : MRet M := fun A a w => (Returned a, w).
#[export] Instance M_bind : MBind M := fun A B f m w =>
  match m w with
  | (Returned a, w') => f a w'
  | (Raised e, w') => (Raised e, w')
  end.

(** [try: body except Exception as e: handler(e)] *)
Definition try_except_Exception {A} (body : M A) (handler : exn -> M A) : M A :=
  fun w =>
    match body w with
    | (Raised e, w') =>
        if is_Exception e then handler e w' else (Raised e, w')
    | r => r
    end.

Definition set_trace (t : list event) (w : world) : world :=
  {| environ := environ w; dotenv_file := dotenv_file w; widgets := widgets w;
     genai_service := genai_service w; requests := requests w;
     openable := openable w; entropy := entropy w;
     files := files w; conns := conns w; next_handle := next_handle w;
     statements_run := statements_run w; trace := t |}.

Definition set_environ (e : gmap str str) (w : world) : world :=
  {| environ := e; dotenv_file := dotenv_file w; widgets := widgets w;
     genai_service := genai_service w; requests := requests w;
     openable := openable w; entropy := entropy w;
     files := files w; conns := conns w; next_handle := next_handle w;
     statements_run := statements_run w; trace := trace w |}.

Definition set_requests (n : nat) (w : world) : world :=
  {| environ := environ w; dotenv_file := dotenv_file w; widgets := widgets w;
     genai_service := genai_service w; requests := n;
     openable := openable w; entropy := entropy w;
     files := files w; conns := conns w; next_handle := next_handle w;
     statements_run := statements_run w; trace := trace w |}.

Definition set_files (f : gmap str db) (w : world) : world :=
  {| environ := environ w; dotenv_file := dotenv_file w; widgets := widgets w;
     genai_service := genai_service w; requests := requests w;
     openable := openable w; entropy := entropy w;
     files := f; conns := conns w; next_handle := next_handle w;
     statements_run := statements_run w; trace := trace w |}.

Definition set_conns (c : gmap nat connection) (w : world) : world :=
  {| environ := environ w; dotenv_file := dotenv_file w; widgets := widgets w;
     genai_service := genai_service w; requests := requests w;
     openable := openable w; entropy := entropy w;
     files := files w; conns := c; next_handle := next_handle w;
     statements_run := statements_run w; trace := trace w |}.

Definition set_next_handle (n : nat) (w : world) : world :=
  {| environ := environ w; dotenv_file := dotenv_file w; widgets := widgets w;
     genai_service := genai_service w; requests := requests w;
     openable := openable w; entropy := entropy w;
     files := files w; conns := conns w; next_handle := n;
     statements_run := statements_run w; trace := trace w |}.

Definition set_statements_run (n : nat) (w : world) : world :=
  {| environ := environ w; dotenv_file := dotenv_file w; widgets := widgets w;
     genai_service := genai_service w; requests := requests w;
     openable := openable w; entropy := entropy w;
     files := files w; conns := conns w; next_handle := next_handle w;
     statements_run := n; trace := trace w |}.

Definition record (ev : event) (w : world) : world := set_trace (trace w ++ [ev]) w.

(** What the next statement run draws from outside the database. *)
Definition noise (w : world) : nat := entropy w (statements_run w).

Definition call (ev : event) : M unit := fun w => (Returned tt, record ev w).

(** ** [dotenv], [os] and the generation client *)

(** [load_dotenv()]: variables already in the environment keep their value. *)
Definition load_dotenv : M unit := fun w =>
  (Returned tt, record LoadDotenv (set_environ (environ w ∪ dotenv_file w) w)).

Definition os_getenv (key : str) : M (option str) := fun w =>
  (Returned (environ w !! key), w).

Definition genai_configure (api_key : str) : M unit := call (Configure api_key).

Definition genai_GenerativeModel (name : str) : M unit := call (GenerativeModel name).

(** [model.generate_content(prompt)]: one request to the endpoint. *)
Definition generate_content (prompt : str) : M response := fun w =>
  let w' := set_requests (S (requests w)) (record (GenerateContent prompt) w) in
  match genai_service w (requests w) prompt with
  | Ok r => (Returned r, w')
  | Failed e => (Raised (Failure e), w')
  end.

(** [response.text] *)
Definition text (r : response) : M str := fun w =>
  match response_text r with
  | Ok t => (Returned t, w)
  | Failed e => (Raised (Failure e), w)
  end.

(** ** [sqlite3]

    The module as the program uses it, with its default transaction
    control: a connection starts in autocommit; [execute] begins a
    transaction before an INSERT, UPDATE, DELETE or REPLACE statement and
    nothing but [commit] ends it; [close] commits nothing.  [connect]
    raises on a path at which no database can be opened. *)

Definition closed_database : error :=
  Error ProgrammingError (py "Cannot operate on a closed database.").

Definition one_statement_only : error :=
  Error ProgrammingError (py "You can only execute one statement at a time.").

(** The database in a file; a missing file is an empty database. *)
Definition file_db (w : world) (path : str) : db := default empty_db (files w !! path).

Definition unable_to_open : error :=
  Error OperationalError (py "unable to open database file").

(** [sqlite3.connect(path)] *)
Definition sqlite3_connect (path : str) : M nat := fun w =>
  if openable w path then
    let h := next_handle w in
    let c := {| conn_path := path; conn_txn := None; conn_rows := []; conn_error := None |} in
    (Returned h,
     record (Connect path h) (set_next_handle (S h) (set_conns (<[h := c]> (conns w)) w)))
  else (Raised (Failure unable_to_open), record (ConnectFailed path) w).

(** [conn.cursor()]: the cursor works on its connection's handle. *)
Definition conn_cursor (h : nat) : M nat := mret h.

(** [cursor.execute(sql)]: compiles the first statement, refuses a text with
    more after it, opens a transaction before a DML statement, and takes the
    first step; an error before the first row is raised here, a later one
    when the rows are fetched.  What the statement wrote, also when it
    failed part way, is in the transaction if one is open and otherwise in
    the file at once. *)
Definition cursor_execute (h : nat) (sql : str) : M unit := fun w0 =>
  let w := record (Execute h sql) w0 in
  match conns w !! h with
  | None => (Raised (Failure closed_database), w)
  | Some c =>
      let view := default (file_db w (conn_path c)) (conn_txn c) in
      match prepare view sql with
      | Failed e => (Raised (Failure e), w)
      | Ok (st, tail) =>
          match lstrip_sql tail with
          | _ :: _ => (Raised (Failure one_statement_only), w)
          | [] =>
              match st with
              | None =>
                  let c' := {| conn_path := conn_path c; conn_txn := conn_txn c;
                               conn_rows := []; conn_error := None |} in
                  (Returned tt, set_conns (<[h := c']> (conns w)) w)
              | Some st =>
                  let in_txn := match conn_txn c with Some _ => true | None => false end || is_dml sql in
                  let seed := noise w in
                  let w := set_statements_run (S (statements_run w)) w in
                  match run st view seed with
                  | (rows, d, Some e) =>
                      let txn := if in_txn then Some d else None in
                      let w := if in_txn then w
                               else set_files (<[conn_path c := d]> (files w)) w in
                      match rows with
                      | [] =>
                          let c' := {| conn_path := conn_path c; conn_txn := txn;
                                       conn_rows := []; conn_error := None |} in
                          (Raised (Failure e), set_conns (<[h := c']> (conns w)) w)
                      | _ :: _ =>
                          let c' := {| conn_path := conn_path c; conn_txn := txn;
                                       conn_rows := rows; conn_error := Some e |} in
                          (Returned tt, set_conns (<[h := c']> (conns w)) w)
                      end
                  | (rows, d, None) =>
                      if in_txn then
                        let c' := {| conn_path := conn_path c; conn_txn := Some d;
                                     conn_rows := rows; conn_error := None |} in
                        (Returned tt, set_conns (<[h := c']> (conns w)) w)
                      else
                        let c' := {| conn_path := conn_path c; conn_txn := None;
                                     conn_rows := rows; conn_error := None |} in
                        (Returned tt,
                         set_conns (<[h := c']> (conns w))
                           (set_files (<[conn_path c := d]> (files w)) w))
                  end
              end
          end
      end
  end.

(** [cursor.fetchall()] *)
Definition cursor_fetchall (h : nat) : M (list row) := fun w0 =>
  let w := record (Fetchall h) w0 in
  match conns w !! h with
  | None => (Raised (Failure closed_database), w)
  | Some c =>
      let c' := {| conn_path := conn_path c; conn_txn := conn_txn c;
                   conn_rows := []; conn_error := None |} in
      let w' := set_conns (<[h := c']> (conns w)) w in
      match conn_error c with
      | Some e => (Raised (Failure e), w')
      | None => (Returned (conn_rows c), w')
      end
  end.

(** [conn.close()]: nothing is committed; a pending transaction is lost
    with the connection. *)
Definition conn_close (h : nat) : M unit := fun w =>
  (Returned tt, record (Close h) (set_conns (delete h (conns w)) w)).

(** ** Streamlit *)

Definition st_error (msg : str) : M unit := call (StError msg).
Definition st_success (msg : str) : M unit := call (StSuccess msg).
Definition st_code (body language : str) : M unit := call (StCode body language).
Definition st_subheader (body : str) : M unit := call (StSubheader body).
Definition st_table (data : list row) : M unit := call (StTable data).
Definition st_markdown (body : str) (unsafe_allow_html : bool) : M unit :=
  call (StMarkdown body unsafe_allow_html).
Definition st_image (url : str) (width : N) : M unit := call (StImage url width).
Definition st_set_page_config (page_title page_icon layout : str) : M unit :=
  call (StSetPageConfig page_title page_icon layout).
Definition st_sidebar_title (body : str) : M unit := call (StSidebarTitle body).

(** [st.stop()] ends the script run by raising the script-control exception. *)
Definition st_stop {A} : M A := fun w =>
  (Raised StopException, record StStop w).

Definition st_text_input (label : str) : M str := fun w =>
  (Returned (text_input (widgets w)), record (StTextInput label) w).

Definition st_button (label : str) : M bool := fun w =>
  (Returned (button_pressed (widgets w)), record (StButton label) w).

Definition st_sidebar_radio (label : str) (options : list str) : M str := fun w =>
  (Returned (radio_choice (widgets w)), record (StSidebarRadio label options) w).

(** ** The application *)

(** [a == b] on strings *)
Fixpoint str_eqb (a b : str) : bool :=
  match a, b with
  | [], [] => true
  | x :: a', y :: b' => (x =? y) && str_eqb a' b'
  | _, _ => false
  end.

(** Truth value of [API_KEY] as [os.getenv] gives it: [None] and the empty
    string are false. *)
Definition truthy (v : option str) : bool :=
  match v with
  | None | Some [] => false
  | Some (_ :: _) => true
  end.

Definition PROMPT : str := py "
You are an expert in converting English questions to SQL queries.

The SQLite database has ONE table named Students with the following columns:
name, class, marks, company

Rules:
- Only generate valid SQLite SQL
- Do NOT explain anything
- Do NOT add markdown
- Return ONLY the SQL query

Examples:

Question: How many entries are present?
SQL: SELECT COUNT(*) FROM Students;

Question: Tell me all the students studying in MCom class?
SQL: SELECT * FROM Students WHERE class='MCom';
".

(** The statement of the first example in [PROMPT]. *)
Definition count_query : str := py "SELECT COUNT(*) FROM Students;".

Definition get_sql_query (question : str) : M str :=
  response ← generate_content (PROMPT ++ py "
Question: " ++ question);
  raw ← text response;
  let sql := strip raw in
  (* Safety cleanup *)
  let sql := strip (replace fence [] (replace fence_sql [] sql)) in
  mret sql.

Definition execute_sql (sql : str) (db_path : str) : M (list row) :=
  conn ← sqlite3_connect db_path;
  cursor ← conn_cursor conn;
  cursor_execute cursor sql;;
  rows ← cursor_fetchall cursor;
  conn_close conn;;
  mret rows.

Definition page_home : M unit :=
  st_markdown (py "
        <style>
            body { background-color: #2E2E2E; }
            .title { text-align:center; color:#4CAF50; font-size:40px; }
            .subtitle { text-align:center; color:#4CAF50; font-size:22px; }
            .text { color:white; font-size:18px; }
        </style>
    ") true;;
  st_markdown (py "<div class='title'>Welcome to IntelliSQL</div>") true;;
  st_markdown (py "<div class='subtitle'>Query Databases Using Natural Language</div>") true;;
  st_image
    (py "https://cdn1.iconfinder.com/data/icons/business-dual-color-glyph-set-3/128/Data_warehouse-1024.png")
    300.

Definition page_about : M unit :=
  st_markdown (py "
        <style>
            .content { color:white; font-size:18px; }
        </style>
    ") true;;
  st_markdown (py "<h1 style='color:#4CAF50;'>About IntelliSQL</h1>") true;;
  st_markdown (py "
        <div class='content'>
        IntelliSQL allows users to query SQL databases using plain English.
        It leverages Google's Gemini LLM to convert natural language into SQL.
        </div>
    ") true.

Definition error_message (e : exn) : str := [10060] ++ py " Error: " ++ exn_str e.

Definition page_query : M unit :=
  st_markdown (py "<h1 style='color:#4CAF50;'>Intelligent Query Assistance</h1>") true;;
  question ← st_text_input (py "Enter your question in English:");
  submit ← st_button (py "Generate & Execute SQL");
  if submit && negb (str_eqb question []) then
    try_except_Exception
      (sql ← get_sql_query question;
       st_success (py "Generated SQL:");;
       st_code sql (py "sql");;
       results ← execute_sql sql (py "data.db");
       st_subheader (py "Query Result:");;
       st_table results)
      (fun e => st_error (error_message e))
  else mret tt.

Definition main : M unit :=
  st_set_page_config (py "IntelliSQL") [127775] (py "wide");;
  st_sidebar_title (py "Navigation");;
  choice ← st_sidebar_radio (py "Go to")
             [py "Home"; py "About"; py "Intelligent Query Assistance"];
  if str_eqb choice (py "Home") then page_home
  else if str_eqb choice (py "About") then page_about
  else page_query.

(** The module body, as one run of the script executes it (Streamlit runs
    the file as [__main__], so the guarded call of [main] is taken). *)
Definition script : M unit :=
  load_dotenv;;
  API_KEY ← os_getenv (py "GOOGLE_API_KEY");
  (if negb (truthy API_KEY) then
     st_error ([10060] ++ py " GOOGLE_API_KEY not found in .env file");;
     st_stop
   else mret tt);;
  genai_configure (default [] API_KEY);;
  genai_GenerativeModel (py "gemini-1.5-flash");;
  main.

End Program.

(** ** A reference engine for the statement forms of the prompt

    The engine is SQLite, outside this repository.  [MiniSQL] interprets the
    statements the prompt teaches the model to write, and the writes that
    follow the same pattern: [SELECT *] and [SELECT COUNT( * )] with an
    optional [WHERE column = literal], [DELETE] with the same optional
    filter, and [DROP TABLE]; and [SELECT random()], a statement whose row
    does not come from the database.  Names and keywords compare without
    case, text compares code point by code point, [NULL] equals nothing; any
    other text is refused as a syntax error. *)
Module MiniSQL.

Record table := { columns : list str; rows : list row }.

(** Tables by name, in creation order. *)
Abbreviation database := (list (str * table)).

Inductive token :=
| TWord (w : str)
| TString (s : str)
| TNumber (z : Z)
| TSym (c : N)
| TBad.

Inductive lex_state :=
| LStart
| LWord (acc : str)
| LNumber (acc : Z)
| LString (acc : str).

Definition is_digit (c : N) : bool := (48 <=? c) && (c <=? 57).

Definition is_letter (c : N) : bool :=
  ((65 <=? c) && (c <=? 90)) || ((97 <=? c) && (c <=? 122)) || (c =? 95).

Definition is_blank (c : N) : bool :=
  (c =? 32) || (c =? 9) || (c =? 10) || (c =? 12) || (c =? 13).

Definition digit_value (c : N) : Z := Z.of_N (c - 48).

Definition emit (t : token) (r : list token * str) : list token * str :=
  (t :: fst r, snd r).

(** Tokens of the first statement, up to its semicolon, and the text after
    that semicolon. *)
Fixpoint lex (st : lex_state) (s : str) : list token * str :=
  match s with
  | [] =>
      match st with
      | LStart => ([], [])
      | LWord acc => ([TWord acc], [])
      | LNumber z => ([TNumber z], [])
      | LString _ => ([TBad], [])
      end
  | c :: s' =>
      let fresh (flush : list token * str -> list token * str) :=
        if is_blank c then flush (lex LStart s')
        else if is_letter c then flush (lex (LWord [c]) s')
        else if is_digit c then flush (lex (LNumber (digit_value c)) s')
        else if c =? 39 then flush (lex (LString []) s')
        else if c =? 59 then flush ([], s')
        else flush (emit (TSym c) (lex LStart s')) in
      match st with
      | LString acc =>
          if c =? 39 then
            match s' with
            | d :: s'' =>
                if d =? 39 then lex (LString (acc ++ [39])) s''
                else emit (TString acc) (lex LStart s')
            | [] => ([TString acc], [])
            end
          else lex (LString (acc ++ [c])) s'
      | LWord acc =>
          if is_letter c || is_digit c then lex (LWord (acc ++ [c])) s'
          else fresh (emit (TWord acc))
      | LNumber z =>
          if is_digit c then lex (LNumber (10 * z + digit_value c)) s'
          else if is_letter c then emit TBad (lex (LWord [c]) s')
          else fresh (emit (TNumber z))
      | LStart => fresh (fun r => r)
      end
  end.

Definition cond : Type := str * value.

Inductive statement :=
| SelectAll (t : str) (filter : option cond)
| SelectCount (t : str) (filter : option cond)
| Delete (t : str) (filter : option cond)
| DropTable (t : str)
| SelectRandom.

Definition keyword (w : str) (k : string) : bool := str_eqb (map lower w) (py k).

Definition parse_filter (ts : list token) : option (option cond) :=
  match ts with
  | [] => Some None
  | [TWord w; TWord c; TSym 61; TString s] =>
      if keyword w "where" then Some (Some (c, VText s)) else None
  | [TWord w; TWord c; TSym 61; TNumber z] =>
      if keyword w "where" then Some (Some (c, VInt z)) else None
  | _ => None
  end.

Definition parse (ts : list token) : option statement :=
  match ts with
  | [TWord s; TWord r; TSym 40; TSym 41] =>
      if keyword s "select" && keyword r "random" then Some SelectRandom else None
  | TWord s :: TSym 42 :: TWord f :: TWord t :: rest =>
      if keyword s "select" && keyword f "from"
      then SelectAll t <$> parse_filter rest else None
  | TWord s :: TWord c :: TSym 40 :: TSym 42 :: TSym 41 :: TWord f :: TWord t :: rest =>
      if keyword s "select" && keyword c "count" && keyword f "from"
      then SelectCount t <$> parse_filter rest else None
  | TWord d :: TWord f :: TWord t :: rest =>
      if keyword d "delete" && keyword f "from" then Delete t <$> parse_filter rest
      else if keyword d "drop" && keyword f "table"
           then match rest with [] => Some (DropTable t) | _ => None end
           else None
  | _ => None
  end.

Definition name_eqb (a b : str) : bool := str_eqb (map lower a) (map lower b).

Definition find_table (t : str) (d : database) : option table :=
  snd <$> find (fun e => name_eqb t (fst e)) d.

Fixpoint column_index (c : str) (cols : list str) : option nat :=
  match cols with
  | [] => None
  | x :: cols' => if name_eqb c x then Some O else S <$> column_index c cols'
  end.

Definition value_eqb (a b : value) : bool :=
  match a, b with
  | VInt x, VInt y => (x =? y)%Z
  | VText x, VText y => str_eqb x y
  | _, _ => false
  end.

(** Does a row pass the filter?  [i] is the position of the filtered column. *)
Definition passes (i : nat) (v : value) (r : row) : bool :=
  value_eqb (nth i r VNull) v.

(** SQLite names the token at which it gave up.  The fragment does so when
    that token is the first word, one that starts no statement: near, the
    word in double quotes, and syntax error. *)
Definition syntax_error : error := Error OperationalError (py "syntax error").

Definition syntax_error_near (w : str) : error :=
  Error OperationalError (py "near " ++ [34] ++ w ++ [34] ++ py ": syntax error").

Definition starts_statement (w : str) : bool :=
  keyword w "select" || keyword w "delete" || keyword w "drop".

Definition syntax_error_in (ts : list token) : error :=
  match ts with
  | TWord w :: _ => if starts_statement w then syntax_error else syntax_error_near w
  | _ => syntax_error
  end.

Definition no_such_table (t : str) : error :=
  Error OperationalError (py "no such table: " ++ t).

Definition no_such_column (c : str) : error :=
  Error OperationalError (py "no such column: " ++ c).

Definition target (s : statement) : str * option cond :=
  match s with
  | SelectAll t f | SelectCount t f | Delete t f => (t, f)
  | DropTable t => (t, None)
  | SelectRandom => ([], None)
  end.

(** Name resolution, done when the statement is compiled. *)
Definition resolve (d : database) (s : statement) : option error :=
  match s with
  | SelectRandom => None
  | _ =>
      let '(t, f) := target s in
      match find_table t d with
      | None => Some (no_such_table t)
      | Some tb =>
          match f with
          | Some (c, _) =>
              match column_index c (columns tb) with
              | None => Some (no_such_column c)
              | Some _ => None
              end
          | None => None
          end
      end
  end.

Definition mini_prepare (d : database) (sql : str) : outcome (option statement * str) :=
  let '(ts, tail) := lex LStart sql in
  match ts with
  | [] => Ok (None, tail)
  | _ :: _ =>
      match parse ts with
      | None => Failed (syntax_error_in ts)
      | Some s =>
          match resolve d s with
          | Some e => Failed e
          | None => Ok (Some s, tail)
          end
      end
  end.

(** The rows of [tb] the filter selects, in storage order. *)
Definition selected (tb : table) (f : option cond) : list row :=
  match f with
  | None => rows tb
  | Some (c, v) =>
      match column_index c (columns tb) with
      | Some i => List.filter (passes i v) (rows tb)
      | None => []
      end
  end.

Definition remaining (tb : table) (f : option cond) : list row :=
  match f with
  | None => []
  | Some (c, v) =>
      match column_index c (columns tb) with
      | Some i => List.filter (fun r => negb (passes i v r)) (rows tb)
      | None => rows tb
      end
  end.

Definition set_rows (t : str) (rs : list row) (d : database) : database :=
  map (fun e => if name_eqb t (fst e)
                then (fst e, {| columns := columns (snd e); rows := rs |}) else e) d.

Definition drop_table (t : str) (d : database) : database :=
  List.filter (fun e => negb (name_eqb t (fst e))) d.

(** No statement of the fragment fails while it runs; only [SELECT random()]
    uses what comes from outside the database. *)
Definition mini_run (s : statement) (d : database) (seed : nat)
    : list row * database * option error :=
  match s with
  | SelectRandom => ([[VInt (Z.of_nat seed)]], d, None)
  | _ =>
      match find_table (fst (target s)) d with
      | None => ([], d, Some (no_such_table (fst (target s))))
      | Some tb =>
          match s with
          | SelectAll _ f => (selected tb f, d, None)
          | SelectCount _ f => ([[VInt (Z.of_nat (length (selected tb f)))]], d, None)
          | Delete t f => ([], set_rows t (remaining tb f) d, None)
          | DropTable t => ([], drop_table t d, None)
          | SelectRandom => ([], d, None)
          end
      end
  end.

#[export] Instance engine : Engine := {|
  db := database;
  stmt := statement;
  empty_db := [];
  prepare := mini_prepare;
  run := mini_run
|}.

(** A database file with the table of the prompt and two students. *)
Definition students : table := {|
  columns := [py "name"; py "class"; py "marks"; py "company"];
  rows := [ [VText (py "Asha"); VText (py "MCom"); VInt 81; VText (py "Infosys")];
            [VText (py "Ravi"); VText (py "BCom"); VInt 67; VText (py "TCS")] ]
|}.

Definition sample_db : database := [(py "Students", students)].

Definition sample_world (service : nat -> str -> outcome response)
    (question : str) (submit : bool) : world :=
  {| environ := ∅; dotenv_file := ∅;
     widgets := {| radio_choice := py "Intelligent Query Assistance";
                   text_input := question; button_pressed := submit |};
     genai_service := service; requests := 0;
     openable := fun _ => true; entropy := fun n => n;
     files := {[ py "data.db" := sample_db ]}; conns := ∅; next_handle := 0;
     statements_run := 0; trace := [] |}.

(** An endpoint that answers every request with the same text, and one that
    fails every request. *)
Definition always (raw : str) : nat -> str -> outcome response :=
  fun _ _ => Ok {| response_text := Ok raw |}.

Definition failing (e : error) : nat -> str -> outcome response :=
  fun _ _ => Failed e.

Definition asha : row :=
  [VText (py "Asha"); VText (py "MCom"); VInt 81; VText (py "Infosys")].

Definition question : str := py "How many entries are present?".

(** Replies of the endpoint: the count statement in a fenced block, and a
    statement that quotes a column name with backticks in a fenced block. *)
Definition fenced_count : str := fenced_response (py "sql") count_query.

Definition quoted_name : str := py "SELECT `name` FROM Students;".

Definition fenced_quoted_name : str := fenced_response (py "sql") quoted_name.

Definition data_db : str := py "data.db".

Definition quota : error := Error GoogleAPIError (py "429 quota exceeded").

Definition delete_all : str := py "DELETE FROM Students;".
Definition drop_students : str := py "DROP TABLE Students;".
Definition misspelt : str := py "SELEC * FROM Students;".
Definition mcom_query : str := py "SELECT * FROM Students WHERE class='MCom';".
Definition delete_then_drop : str := py "DELETE FROM Students; DROP TABLE Students;".

(** The error for the misspelt statement. *)
Definition misspelt_error : error := syntax_error_near (py "SELEC").

(** An endpoint that fails the first request and answers the later ones. *)
Definition flaky (e : error) (raw : str) : nat -> str -> outcome response :=
  fun n _ =>
    match n with
    | O => Failed e
    | S _ => Ok {| response_text := Ok raw |}
    end.

(** The sample file, the question entered, the button pressed, and an
    endpoint that answers with the fenced count statement. *)
Definition world0 : world := sample_world (always fenced_count) question true.

(** The same with an endpoint that is out of quota. *)
Definition world_quota : world := sample_world (failing quota) question true.

(** The same with an endpoint that fails once. *)
Definition world_flaky : world := sample_world (flaky quota fenced_count) question true.

(** The same with nothing entered. *)
Definition world_idle : world := sample_world (always fenced_count) [] true.


End MiniSQL.

(** ** Notions the properties are stated with *)

(** Text in which every backtick belongs to a run of exactly three. *)
Inductive fenced : str -> Prop :=
| fenced_nil : fenced []
| fenced_char c s : c <> backtick -> fenced s -> fenced (c :: s)
| fenced_fence s : fenced s -> fenced (backtick :: backtick :: backtick :: s).

Section Outcomes.
Context `{Engine}.

(** The text [get_sql_query] sends for a question. *)
Definition request_for (question : str) : str :=
  PROMPT ++ py "
Question: " ++ question.

(** The endpoint answers the next request for [question] with text [raw]. *)
Definition answers (w : world) (question raw : str) : Prop :=
  genai_service w (requests w) (request_for question)
  = Ok {| response_text := Ok raw |}.

(** Execution of the text [sql] on database [d], drawing [n] from outside,
    succeeds with these rows and this resulting database. *)
Inductive succeeds (d : db) (n : nat) (sql : str) : list row -> db -> Prop :=
| succeeds_empty tail :
    prepare d sql = Ok (None, tail) -> lstrip_sql tail = [] ->
    succeeds d n sql [] d
| succeeds_run st tail rows d' :
    prepare d sql = Ok (Some st, tail) -> lstrip_sql tail = [] ->
    run st d n = (rows, d', None) ->
    succeeds d n sql rows d'.

(** Execution of the text [sql] on database [d], drawing [n] from outside,
    raises [e]: the first statement does not compile, more text follows it,
    or it fails while it runs. *)
Inductive fails (d : db) (n : nat) (sql : str) : error -> Prop :=
| fails_prepare e :
    prepare d sql = Failed e -> fails d n sql e
| fails_multiple st tail :
    prepare d sql = Ok (st, tail) -> lstrip_sql tail <> [] ->
    fails d n sql one_statement_only
| fails_run st tail rows d' e :
    prepare d sql = Ok (Some st, tail) -> lstrip_sql tail = [] ->
    run st d n = (rows, d', Some e) ->
    fails d n sql e.


(** The world [execute_sql] leaves when the path cannot be opened. *)
Definition refused (path : str) (w : world) : world := record (ConnectFailed path) w.

Definition fresh_connection (path : str) : connection :=
  {| conn_path := path; conn_txn := None; conn_rows := []; conn_error := None |}.

(** The world right after [sqlite3.connect(path)]. *)
Definition connected (path : str) (w : world) : world :=
  record (Connect path (next_handle w))
    (set_next_handle (S (next_handle w))
       (set_conns (<[next_handle w := fresh_connection path]> (conns w)) w)).

(** The calls [execute_sql] makes on handle [h] when nothing raises. *)
Definition full_call_sequence (path : str) (h : nat) (sql : str) : list event :=
  [Connect path h; Execute h sql; Fetchall h; Close h].

(** The widget calls every run of the query page starts with. *)
Definition page_query_widgets : list event :=
  [StMarkdown (py "<h1 style='color:#4CAF50;'>Intelligent Query Assistance</h1>") true;
   StTextInput (py "Enter your question in English:");
   StButton (py "Generate & Execute SQL")].

(** The world [execute_sql] leaves when nothing raises: [stored] is what the
    statement committed to the file, [ran] the statements the engine ran. *)
Definition finished (path sql : str) (stored : option db) (ran : nat) (w : world) : world :=
  {| environ := environ w; dotenv_file := dotenv_file w; widgets := widgets w;
     genai_service := genai_service w; requests := requests w;
     openable := openable w; entropy := entropy w;
     files := match stored with
              | Some d => <[path := d]> (files w)
              | None => files w
              end;
     conns := delete (next_handle w) (conns w);
     next_handle := S (next_handle w);
     statements_run := ran + statements_run w;
     trace := trace w ++ full_call_sequence path (next_handle w) sql |}.

Definition is_close (ev : event) : bool :=
  match ev with Close _ => true | _ => false end.

(** What a raise of the execution leaves behind: the connection of this
    call is still open and no [close] was called. *)
Definition left_open (path : str) (w w' : world) : Prop :=
  (exists c, conns w' !! next_handle w = Some c /\ conn_path c = path)
  /\ (exists evs, trace w' = trace w ++ Connect path (next_handle w) :: evs
                  /\ forallb (fun ev => negb (is_close ev)) evs = true)
  /\ (statements_run w' <= S (statements_run w))%nat.

(** The world after [get_sql_query] has sent its request. *)
Definition asked (question : str) (w : world) : world :=
  set_requests (S (requests w)) (record (GenerateContent (request_for question)) w).

(** What [get_sql_query] makes of the endpoint's answer. *)
Definition translation (w : world) (question : str) : result str :=
  match genai_service w (requests w) (request_for question) with
  | Ok r =>
      match response_text r with
      | Ok raw =>
          Returned (strip (replace fence [] (replace fence_sql [] (strip raw))))
      | Failed e => Raised (Failure e)
      end
  | Failed e => Raised (Failure e)
  end.


(** The world after the widget calls of the query page. *)
Definition page_opened (w : world) : world :=
  record (StButton (py "Generate & Execute SQL"))
    (record (StTextInput (py "Enter your question in English:"))
       (record
          (StMarkdown (py "<h1 style='color:#4CAF50;'>Intelligent Query Assistance</h1>") true)
          w)).

(** The world after the generated statement has been shown. *)
Definition sql_shown (sql : str) (w : world) : world :=
  record (StCode sql (py "sql")) (record (StSuccess (py "Generated SQL:")) w).

(** One of the two steps of the query page raises [e] and leaves world [w']:
    the translation, or the execution of the statement it returned. *)
Inductive step_raises (w : world) (e : exn) : world -> Prop :=
| translation_raises w' :
    get_sql_query (text_input (widgets w)) (page_opened w) = (Raised e, w') ->
    step_raises w e w'
| execution_raises sql w2 w' :
    get_sql_query (text_input (widgets w)) (page_opened w) = (Returned sql, w2) ->
    execute_sql sql (py "data.db") (sql_shown sql w2) = (Raised e, w') ->
    step_raises w e w'.

(** The world in which the script stops for want of a key. *)
Definition stopped_without_key (w : world) : world :=
  record StStop
    (record (StError ([10060] ++ py " GOOGLE_API_KEY not found in .env file"))
       (record LoadDotenv (set_environ (environ w ∪ dotenv_file w) w))).

(** Calls that reach the generation service or a database. *)
Definition is_external (ev : event) : bool :=
  match ev with
  | Configure _ | GenerativeModel _ | GenerateContent _
  | Connect _ _ | ConnectFailed _ | Execute _ _ | Fetchall _ | Close _ => true
  | _ => false
  end.


(** A language tag without a leading [sql]. *)
Definition without_sql (tag : str) : str :=
  if startswith (py "sql") tag then drop 3 tag else tag.

(** The events a run added to the trace. *)
Definition new_events (w w' : world) : list event :=
  drop (length (trace w)) (trace w').

(** No call in the list reaches the generation service or a database. *)
Definition quiet (evs : list event) : bool :=
  forallb (fun ev => negb (is_external ev)) evs.

(** The world after the module body has loaded the environment, configured
    the client with [key] and created the model. *)
Definition configured (key : str) (w : world) : world :=
  record (GenerativeModel (py "gemini-1.5-flash"))
    (record (Configure key)
       (record LoadDotenv (set_environ (environ w ∪ dotenv_file w) w))).

(** The world after the calls [main] makes before it draws a page. *)
Definition main_opened (w : world) : world :=
  record (StSidebarRadio (py "Go to")
            [py "Home"; py "About"; py "Intelligent Query Assistance"])
    (record (StSidebarTitle (py "Navigation"))
       (record (StSetPageConfig (py "IntelliSQL") [127775] (py "wide")) w)).

(** The calls of the query page up to the display of the statement. *)
Definition statement_shown (question sql : str) : list event :=
  page_query_widgets
  ++ [GenerateContent (request_for question);
      StSuccess (py "Generated SQL:");
      StCode sql (py "sql")].

End Outcomes.

(** ** Further sample worlds *)

(** The sample file with an endpoint that answers with the bare count
    statement, and one that answers with a misspelt statement. *)
Definition world_plain : @world MiniSQL.engine :=
  MiniSQL.sample_world (MiniSQL.always count_query) MiniSQL.question true.

Definition world_misspelt : @world MiniSQL.engine :=
  MiniSQL.sample_world (MiniSQL.always MiniSQL.misspelt) MiniSQL.question true.

Definition secret : str := py "secret".

(** The sample file at start-up, with given environment, .env file and
    page chosen in the sidebar. *)
Definition startup_world (env dotenv : gmap str str) (choice : str)
    : @world MiniSQL.engine :=
  {| environ := env; dotenv_file := dotenv;
     widgets := {| radio_choice := choice; text_input := []; button_pressed := false |};
     genai_service := MiniSQL.always MiniSQL.fenced_count; requests := 0;
     openable := fun _ => true; entropy := fun n => n;
     files := {[ py "data.db" := MiniSQL.sample_db ]}; conns := ∅; next_handle := 0;
     statements_run := 0; trace := [] |}.

Definition world_home : @world MiniSQL.engine := startup_world ∅ ∅ (py "Home").

(** The key in the environment, another in .env. *)
Definition world_key : @world MiniSQL.engine :=
  startup_world {[ py "GOOGLE_API_KEY" := secret ]}
                {[ py "GOOGLE_API_KEY" := py "other" ]} (py "Home").

(** An empty key in the environment, a key in .env. *)
Definition world_empty_key : @world MiniSQL.engine :=
  startup_world {[ py "GOOGLE_API_KEY" := [] ]}
                {[ py "GOOGLE_API_KEY" := secret ]} (py "Home").

(** The sample world with data.db at a place where no database can be
    opened. *)
Definition world_locked : @world MiniSQL.engine :=
  {| environ := ∅; dotenv_file := ∅;
     widgets := {| radio_choice := py "Intelligent Query Assistance";
                   text_input := MiniSQL.question; button_pressed := true |};
     genai_service := MiniSQL.always count_query; requests := 0;
     openable := fun _ => false; entropy := fun n => n;
     files := ∅; conns := ∅; next_handle := 0;
     statements_run := 0; trace := [] |}.

(** A reply with a sentence in front of the fenced count statement. *)
Definition preamble : str := py "Here is the query:".

Definition world_preamble : @world MiniSQL.engine :=
  MiniSQL.sample_world (MiniSQL.always (preamble ++ MiniSQL.fenced_count))
    MiniSQL.question true.


(** * Properties *)

(** ** Strings *)

Example replace_does_not_overlap :
  replace (py "aa") (py "b") (py "aaaaa") = py "bba".
Proof. reflexivity. Qed.

Example replace_empty_pattern :
  replace [] (py "-") (py "abc") = py "-a-b-c-".
Proof. reflexivity. Qed.

Example strip_both_ends : strip (py "  a b
 ") = py "a b".
Proof. reflexivity. Qed.

Example is_dml_skips_blanks_and_comments :
  is_dml (py "  delete from Students") = true
  /\ is_dml (py "/* all */ DELETE FROM Students") = true
  /\ is_dml (py "-- all
UPDATE Students SET marks = 0") = true.
Proof. repeat split; reflexivity. Qed.

Example is_dml_first_word_only :
  is_dml (py "DROP TABLE Students;") = false
  /\ is_dml (py "SELECT COUNT(*) FROM Students;") = false
  /\ is_dml (py "WITH t AS (SELECT 1) DELETE FROM Students") = false.
Proof. repeat split; reflexivity. Qed.

Lemma replace_from_drop old new k s :
  replace_from old new k s = replace_from old new 0 (drop k s).
Proof.
  revert k; induction s as [|c s IH]; intros [|k]; simpl; auto.
Qed.

Lemma startswith_app p s : startswith p (p ++ s) = true.
Proof. induction p as [|a p IH]; simpl; auto. rewrite N.eqb_refl; auto. Qed.

Lemma startswith_split p s : startswith p s = true -> s = p ++ drop (length p) s.
Proof.
  revert s; induction p as [|a p IH]; intros [|b s]; simpl; try discriminate; auto.
  intros H. apply andb_true_iff in H as [E H]. apply N.eqb_eq in E. subst.
  f_equal. auto.
Qed.

Lemma replace_nil old new : old <> [] -> replace old new [] = [].
Proof. destruct old; [congruence|reflexivity]. Qed.

Lemma replace_match old new s :
  old <> [] -> replace old new (old ++ s) = new ++ replace old new s.
Proof.
  destruct old as [|a old]; [congruence|]. intros _.
  unfold replace. change ((a :: old) ++ s) with (a :: (old ++ s)).
  cbn [replace_from]. change (a :: old ++ s) with ((a :: old) ++ s).
  rewrite startswith_app. f_equal.
  rewrite replace_from_drop. cbn [length]. rewrite Nat.sub_succ, Nat.sub_0_r.
  now rewrite drop_app_length.
Qed.

Lemma replace_nomatch old new c s :
  old <> [] -> startswith old (c :: s) = false ->
  replace old new (c :: s) = c :: replace old new s.
Proof.
  destruct old as [|a old]; [congruence|]. intros _ H.
  unfold replace. cbn [replace_from]. now rewrite H.
Qed.

Lemma lstrip_suffix s : exists a, s = a ++ lstrip s.
Proof.
  induction s as [|c s [a IH]]; simpl.
  - now exists [].
  - destruct (isspace c).
    + exists (c :: a). simpl. now f_equal.
    + now exists [].
Qed.

Lemma rstrip_prefix s : exists b, s = rstrip s ++ b.
Proof.
  unfold rstrip. destruct (lstrip_suffix (reverse s)) as [a Ha].
  exists (reverse a). rewrite <- reverse_app, <- Ha. now rewrite reverse_involutive.
Qed.

Lemma strip_infix s : exists a b, s = a ++ strip s ++ b.
Proof.
  unfold strip. destruct (lstrip_suffix s) as [a Ha].
  destruct (rstrip_prefix (lstrip s)) as [b Hb].
  exists a, b. now rewrite <- Hb.
Qed.

Lemma lstrip_head s c : head (lstrip s) = Some c -> isspace c = false.
Proof.
  induction s as [|d s IH]; simpl; [discriminate|].
  destruct (isspace d) eqn:E; auto. simpl. intros [= <-]. exact E.
Qed.

Lemma strip_last s c : last (strip s) = Some c -> isspace c = false.
Proof.
  unfold strip, rstrip. rewrite last_reverse. intros H. apply lstrip_head in H. auto.
Qed.

Lemma strip_head s c : head (strip s) = Some c -> isspace c = false.
Proof.
  unfold strip. destruct (rstrip_prefix (lstrip s)) as [b Hb].
  intros H. apply (lstrip_head s). rewrite Hb.
  rewrite head_app, H. reflexivity.
Qed.

Lemma strip_elem s (c : N) : c ∈ strip s -> c ∈ s.
Proof.
  destruct (strip_infix s) as (a & b & E). intros H. rewrite E.
  rewrite !elem_of_app. auto.
Qed.

Lemma startswith_app_l p s t : startswith p s = true -> startswith p (s ++ t) = true.
Proof.
  revert s; induction p as [|a p IH]; intros [|b s]; simpl; auto; try discriminate.
  intros H. apply andb_true_iff in H as [-> H]. simpl. auto.
Qed.

Lemma contains_app_l p s t : contains p s = true -> contains p (s ++ t) = true.
Proof.
  induction s as [|c s IH]; simpl.
  - rewrite orb_false_r. destruct p; [|discriminate]. intros _. destruct t; reflexivity.
  - intros H. apply orb_true_iff in H as [H|H].
    + change (c :: s ++ t) with ((c :: s) ++ t). rewrite (startswith_app_l _ _ _ H). reflexivity.
    + rewrite (IH H). apply orb_true_r.
Qed.

Lemma contains_app_r p s t : contains p t = true -> contains p (s ++ t) = true.
Proof.
  intros H. induction s as [|c s IH]; simpl; auto. rewrite IH. apply orb_true_r.
Qed.

Lemma contains_strip p s : contains p s = false -> contains p (strip s) = false.
Proof.
  intros H. destruct (contains p (strip s)) eqn:E; auto.
  destruct (strip_infix s) as (a & b & Es). rewrite Es in H.
  rewrite contains_app_r in H; [discriminate|]. now apply contains_app_l.
Qed.

Lemma contains_prefix p q s : contains (p ++ q) s = true -> contains p s = true.
Proof.
  induction s as [|c s IH]; simpl.
  - rewrite !orb_false_r. destruct p; simpl; auto.
  - intros H. apply orb_true_iff in H as [H|H].
    + apply startswith_split in H. rewrite H. rewrite <- app_assoc.
      rewrite startswith_app. reflexivity.
    + rewrite (IH H). apply orb_true_r.
Qed.

(** ** Removing the fences *)
Lemma fence_nonempty : fence <> [].
Proof. discriminate. Qed.

Lemma fence_sql_eq : fence_sql = [96; 96; 96; 115; 113; 108].
Proof. reflexivity. Qed.

Lemma fence_sql_nonempty : fence_sql <> [].
Proof. discriminate. Qed.

Lemma startswith_other (p : str) a c s : c <> a -> startswith (a :: p) (c :: s) = false.
Proof. intros H. simpl. apply N.eqb_neq in H. rewrite N.eqb_sym in H. now rewrite H. Qed.

Lemma replace_other old new a c s :
  c <> a -> replace (a :: old) new (c :: s) = c :: replace (a :: old) new s.
Proof.
  intros H. apply replace_nomatch; [discriminate|]. now apply startswith_other.
Qed.

Lemma replace_fence_other c s :
  c <> backtick -> replace fence [] (c :: s) = c :: replace fence [] s.
Proof. exact (replace_other [backtick; backtick] [] backtick c s). Qed.

Lemma replace_fence_sql_other c s :
  c <> backtick -> replace fence_sql [] (c :: s) = c :: replace fence_sql [] s.
Proof. exact (replace_other (backtick :: backtick :: py "sql") [] backtick c s). Qed.

Lemma startswith_fence_other c s : c <> backtick -> startswith fence (c :: s) = false.
Proof. exact (startswith_other [backtick; backtick] backtick c s). Qed.

Lemma replace_fence_match s :
  replace fence [] (backtick :: backtick :: backtick :: s) = replace fence [] s.
Proof. exact (replace_match fence [] s fence_nonempty). Qed.

Lemma strong_len_ind (P : str -> Prop) :
  (forall s, (forall t, (length t < length s)%nat -> P t) -> P s) -> forall s, P s.
Proof.
  intros H s. remember (length s) as n eqn:E. revert s E.
  induction n as [n IH] using lt_wf_ind. intros s ->. apply H.
  intros t Ht. exact (IH _ Ht t eq_refl).
Qed.

Lemma replace_fence_two s :
  startswith [backtick; backtick] s = false ->
  startswith [backtick; backtick] (replace fence [] s) = false.
Proof.
  destruct s as [|a [|b s]]; auto.
  - intros _. destruct (N.eq_dec a backtick) as [->|Ha]; [reflexivity|].
    rewrite replace_fence_other by exact Ha. now apply startswith_other.
  - destruct (N.eq_dec a backtick) as [->|Ha].
    + destruct (N.eq_dec b backtick) as [->|Hb]; [discriminate|]. intros _.
      assert (Hb' : (backtick =? b) = false) by (apply N.eqb_neq; congruence).
      rewrite replace_nomatch; [|discriminate|].
      * rewrite replace_fence_other by exact Hb. cbn [startswith].
        now rewrite Hb', andb_false_r.
      * change fence with [backtick; backtick; backtick]. cbn [startswith].
        now rewrite Hb', andb_false_r.
    + intros _. rewrite replace_fence_other by exact Ha. now apply startswith_other.
Qed.

Lemma replace_fence_clears s : contains fence (replace fence [] s) = false.
Proof.
  induction s as [s IH] using strong_len_ind.
  destruct s as [|c s]; [reflexivity|].
  destruct (startswith fence (c :: s)) eqn:E.
  - apply startswith_split in E. rewrite E.
    rewrite (replace_match fence [] _ fence_nonempty). simpl app.
    apply IH. simpl. rewrite length_drop. simpl. lia.
  - rewrite (replace_nomatch fence [] c s fence_nonempty E).
    cbn [contains]. rewrite (IH s) by (simpl; lia). rewrite orb_false_r.
    destruct (N.eq_dec c backtick) as [->|Hc]; [|now apply startswith_fence_other].
    assert (H2 : startswith [backtick; backtick] s = false) by exact E.
    apply replace_fence_two in H2. exact H2.
Qed.

Lemma fenced_plain s : backtick ∉ s -> fenced s.
Proof.
  induction s as [|c s IH]; intros H; [apply fenced_nil|].
  apply not_elem_of_cons in H as [H1 H2]. apply fenced_char; auto.
Qed.

Lemma fenced_app s t : fenced s -> fenced t -> fenced (s ++ t).
Proof.
  intros Hs Ht. induction Hs; simpl; [exact Ht| |].
  - now apply fenced_char.
  - now apply fenced_fence.
Qed.

Lemma fenced_reverse s : fenced s -> fenced (reverse s).
Proof.
  induction 1 as [|c s Hc Hs IH|s Hs IH]; [constructor| |].
  - rewrite reverse_cons. apply fenced_app; auto.
    apply fenced_char; [exact Hc|apply fenced_nil].
  - rewrite !reverse_cons, <- !app_assoc. apply fenced_app; auto.
    apply (fenced_fence []), fenced_nil.
Qed.

Lemma fenced_lstrip s : fenced s -> fenced (lstrip s).
Proof.
  induction 1 as [|c s Hc Hs IH|s Hs IH]; simpl; [apply fenced_nil| |].
  - destruct (isspace c); auto. now apply fenced_char.
  - now apply fenced_fence.
Qed.

Lemma fenced_strip s : fenced s -> fenced (strip s).
Proof.
  intros H. unfold strip, rstrip.
  now apply fenced_reverse, fenced_lstrip, fenced_reverse, fenced_lstrip.
Qed.

Lemma fenced_replace_fence s : fenced s -> backtick ∉ replace fence [] s.
Proof.
  induction 1 as [|c s Hc Hs IH|s Hs IH].
  - rewrite replace_nil by exact fence_nonempty. apply not_elem_of_nil.
  - rewrite replace_fence_other by exact Hc. apply not_elem_of_cons. auto.
  - now rewrite replace_fence_match.
Qed.

Lemma fenced_replace_fence_sql s : fenced s -> fenced (replace fence_sql [] s).
Proof.
  induction s as [s IH] using strong_len_ind. intros H.
  destruct H as [|c s Hc Hs|s Hs].
  - rewrite replace_nil by exact fence_sql_nonempty. apply fenced_nil.
  - rewrite replace_fence_sql_other by exact Hc. apply fenced_char; auto.
  - destruct (startswith fence_sql (backtick :: backtick :: backtick :: s)) eqn:E.
    + apply startswith_split in E. rewrite fence_sql_eq in E. cbn in E.
      destruct s as [|a s]; [discriminate E|].
      destruct s as [|b s]; [discriminate E|].
      destruct s as [|c s]; [discriminate E|].
      injection E as -> -> ->.
      change (fenced (replace fence_sql [] (fence_sql ++ s))).
      rewrite (replace_match fence_sql [] _ fence_sql_nonempty). simpl app.
      inversion Hs as [|? ? _ H1|]; subst. inversion H1 as [|? ? _ H2|]; subst.
      inversion H2 as [|? ? _ H3|]; subst.
      apply IH; [simpl; lia|exact H3].
    + rewrite (replace_nomatch fence_sql [] _ _ fence_sql_nonempty E).
      assert (E1 : startswith fence_sql (backtick :: backtick :: s) = false).
      { destruct Hs as [|c s Hc Hs|s Hs]; try reflexivity.
        assert (Hc' : (96 =? c) = false) by (apply N.eqb_neq; intros <-; now apply Hc).
        rewrite fence_sql_eq. unfold backtick. cbn [startswith].
        rewrite Hc'. now rewrite ?andb_false_r. }
      rewrite (replace_nomatch fence_sql [] _ _ fence_sql_nonempty E1).
      assert (E2 : startswith fence_sql (backtick :: s) = false).
      { destruct Hs as [|c s Hc Hs|s Hs]; try reflexivity.
        assert (Hc' : (96 =? c) = false) by (apply N.eqb_neq; intros <-; now apply Hc).
        rewrite fence_sql_eq. unfold backtick. cbn [startswith].
        rewrite Hc'. now rewrite ?andb_false_r. }
      rewrite (replace_nomatch fence_sql [] _ _ fence_sql_nonempty E2).
      apply fenced_fence. apply IH; auto. simpl; lia.
Qed.

Lemma cleanup_fenced raw :
  fenced raw -> backtick ∉ strip (replace fence [] (replace fence_sql [] (strip raw))).
Proof.
  intros H Hin. apply strip_elem in Hin. revert Hin.
  now apply fenced_replace_fence, fenced_replace_fence_sql, fenced_strip.
Qed.

Lemma fenced_response_fenced tag body :
  backtick ∉ tag -> backtick ∉ body -> fenced (fenced_response tag body).
Proof.
  intros Ht Hb. unfold fenced_response.
  apply (fenced_fence (tag ++ [10] ++ body ++ [10] ++ fence)).
  repeat apply fenced_app; try now apply fenced_plain.
  - apply fenced_char; [discriminate|apply fenced_nil].
  - apply fenced_char; [discriminate|apply fenced_nil].
  - apply (fenced_fence []), fenced_nil.
Qed.

Lemma cleanup_no_fence s :
  contains fence (strip (replace fence [] s)) = false
  /\ contains fence_sql (strip (replace fence [] s)) = false.
Proof.
  assert (H : contains fence (strip (replace fence [] s)) = false).
  { apply contains_strip, replace_fence_clears. }
  split; [exact H|].
  destruct (contains fence_sql (strip (replace fence [] s))) eqn:E; auto.
  apply (contains_prefix fence (py "sql")) in E. congruence.
Qed.

(** ** Running a statement on a fresh connection *)

Section Execution.
Context `{Engine}.

Lemma connect_spec path w :
  openable w path = true ->
  sqlite3_connect path w = (Returned (next_handle w), connected path w).
Proof. intros Ho. unfold sqlite3_connect. now rewrite Ho. Qed.

Lemma connect_refused path w :
  openable w path = false ->
  sqlite3_connect path w = (Raised (Failure unable_to_open), refused path w).
Proof. intros Ho. unfold sqlite3_connect. now rewrite Ho. Qed.

(** When the path cannot be opened, [execute_sql] raises at [connect]. *)
Lemma execute_sql_refused sql path w :
  openable w path = false ->
  execute_sql sql path w = (Raised (Failure unable_to_open), refused path w).
Proof.
  intros Ho. unfold execute_sql, mbind, M_bind. now rewrite (connect_refused _ _ Ho).
Qed.

(** [execute_sql] is the four library calls in a row; a raise skips the rest. *)
Lemma execute_sql_unfold sql path w :
  openable w path = true ->
  execute_sql sql path w =
  match cursor_execute (next_handle w) sql (connected path w) with
  | (Returned _, w2) =>
      match cursor_fetchall (next_handle w) w2 with
      | (Returned rows, w3) =>
          (Returned rows,
           record (Close (next_handle w)) (set_conns (delete (next_handle w) (conns w3)) w3))
      | (Raised e, w3) => (Raised e, w3)
      end
  | (Raised e, w2) => (Raised e, w2)
  end.
Proof.
  intros Ho.
  unfold execute_sql, mbind, M_bind, conn_cursor, mret, M_ret, conn_close.
  rewrite (connect_spec _ _ Ho).
  destruct (cursor_execute _ _ _) as [[[]|e] w2]; [|reflexivity].
  destruct (cursor_fetchall _ _) as [[rows|e] w3]; reflexivity.
Qed.

Lemma file_db_connected ev path q w :
  file_db (record ev (connected path w)) q = file_db w q.
Proof. reflexivity. Qed.

Lemma noise_connected ev path w :
  noise (record ev (connected path w)) = noise w.
Proof. reflexivity. Qed.

Ltac run_execute Ho :=
  rewrite (execute_sql_unfold _ _ _ Ho); unfold cursor_execute, cursor_fetchall;
  cbn [conns connected record set_trace set_next_handle set_conns set_files
       set_statements_run files trace next_handle];
  rewrite ?lookup_insert_eq;
  cbn [conn_txn conn_path conn_rows conn_error fresh_connection default file_db
       conns files record set_trace set_conns];
  rewrite ?file_db_connected, ?noise_connected.

(** Reading a field of a world that was built by the setters. *)
Ltac world_simpl :=
  cbv beta iota zeta;
  cbn [fst snd orb environ dotenv_file widgets genai_service requests openable entropy
       files conns next_handle statements_run trace
       set_trace set_environ set_requests set_files set_conns set_next_handle
       set_statements_run record connected refused finished fresh_connection
       conn_path conn_txn conn_rows conn_error default].

Lemma world_eq (a b : world) :
  environ a = environ b -> dotenv_file a = dotenv_file b -> widgets a = widgets b ->
  genai_service a = genai_service b -> requests a = requests b ->
  openable a = openable b -> entropy a = entropy b -> files a = files b ->
  conns a = conns b -> next_handle a = next_handle b ->
  statements_run a = statements_run b -> trace a = trace b -> a = b.
Proof. destruct a, b. cbn. intros. subst. reflexivity. Qed.

Ltac finish_world :=
  f_equal; apply world_eq; world_simpl; try reflexivity;
  [ rewrite ?insert_insert_eq, ?delete_insert_eq; try reflexivity
  | unfold full_call_sequence; rewrite <- ?app_assoc; reflexivity ].

Lemma execute_sql_empty sql path w tail :
  openable w path = true ->
  prepare (file_db w path) sql = Ok (None, tail) -> lstrip_sql tail = [] ->
  execute_sql sql path w = (Returned [], finished path sql None 0 w).
Proof.
  intros Ho Hp Ht. run_execute Ho.
  rewrite Hp, Ht. world_simpl. rewrite ?lookup_insert_eq. world_simpl.
  finish_world.
Qed.

Lemma execute_sql_ran sql path w st tail rows d' :
  openable w path = true ->
  prepare (file_db w path) sql = Ok (Some st, tail) -> lstrip_sql tail = [] ->
  run st (file_db w path) (noise w) = (rows, d', None) ->
  execute_sql sql path w
  = (Returned rows, finished path sql (if is_dml sql then None else Some d') 1 w).
Proof.
  intros Ho Hp Ht Hr. run_execute Ho. rewrite Hp, Ht, Hr.
  destruct (is_dml sql); world_simpl; rewrite lookup_insert_eq; world_simpl;
    finish_world.
Qed.

Lemma raised_world (P : world -> Prop) path w x (w' : world) c evs :
  conns w' = <[next_handle w := c]> (conns w) ->
  conn_path c = path ->
  next_handle w' = S (next_handle w) ->
  requests w' = requests w -> genai_service w' = genai_service w ->
  widgets w' = widgets w -> openable w' = openable w -> entropy w' = entropy w ->
  trace w' = (trace w ++ [Connect path (next_handle w)]) ++ evs ->
  forallb (fun ev => negb (is_close ev)) evs = true ->
  (statements_run w' <= S (statements_run w))%nat ->
  P w' ->
  exists w0 c0,
    (Raised x, w') = (Raised (A := list row) x, w0)
    /\ conns w0 = <[next_handle w := c0]> (conns w)
    /\ conn_path c0 = path
    /\ next_handle w0 = S (next_handle w)
    /\ requests w0 = requests w
    /\ genai_service w0 = genai_service w
    /\ widgets w0 = widgets w
    /\ openable w0 = openable w
    /\ entropy w0 = entropy w
    /\ (exists evs, trace w0 = trace w ++ Connect path (next_handle w) :: evs
                    /\ forallb (fun ev => negb (is_close ev)) evs = true)
    /\ (statements_run w0 <= S (statements_run w))%nat
    /\ P w0.
Proof.
  intros H1 H2 H3 H4 H5 H6 H7 H8 H9 H10 H11 H12.
  exists w', c. repeat (split; [assumption || reflexivity|]).
  split; [|split; assumption].
  exists evs. rewrite H9, <- app_assoc. split; [reflexivity|assumption].
Qed.

(** What a raise of the execution leaves of the world: one more connection,
    no [close], and the file as it was unless the statement ran outside a
    transaction and failed part way. *)
Lemma execute_sql_fails_world sql path w e :
  openable w path = true ->
  fails (file_db w path) (noise w) sql e ->
  exists w' c,
    execute_sql sql path w = (Raised (Failure e), w')
    /\ conns w' = <[next_handle w := c]> (conns w)
    /\ conn_path c = path
    /\ next_handle w' = S (next_handle w)
    /\ requests w' = requests w
    /\ genai_service w' = genai_service w
    /\ widgets w' = widgets w
    /\ openable w' = openable w
    /\ entropy w' = entropy w
    /\ (exists evs, trace w' = trace w ++ Connect path (next_handle w) :: evs
                    /\ forallb (fun ev => negb (is_close ev)) evs = true)
    /\ (statements_run w' <= S (statements_run w))%nat
    /\ (files w' = files w
        \/ exists st tail rows d',
             is_dml sql = false
             /\ prepare (file_db w path) sql = Ok (Some st, tail)
             /\ run st (file_db w path) (noise w) = (rows, d', Some e)
             /\ files w' = <[path := d']> (files w)).
Proof.
  intros Ho Hf.
  set (P := fun w' : world =>
    files w' = files w
    \/ exists st tail rows d',
         is_dml sql = false
         /\ prepare (file_db w path) sql = Ok (Some st, tail)
         /\ run st (file_db w path) (noise w) = (rows, d', Some e)
         /\ files w' = <[path := d']> (files w)).
  change (exists w' c,
    execute_sql sql path w = (Raised (Failure e), w')
    /\ conns w' = <[next_handle w := c]> (conns w)
    /\ conn_path c = path
    /\ next_handle w' = S (next_handle w)
    /\ requests w' = requests w
    /\ genai_service w' = genai_service w
    /\ widgets w' = widgets w
    /\ openable w' = openable w
    /\ entropy w' = entropy w
    /\ (exists evs, trace w' = trace w ++ Connect path (next_handle w) :: evs
                    /\ forallb (fun ev => negb (is_close ev)) evs = true)
    /\ (statements_run w' <= S (statements_run w))%nat
    /\ P w').
  assert (HP : forall w' : world, files w' = files w -> P w') by (intros; now left).
  assert (HR : forall (w' : world) st tail rows d',
    is_dml sql = false ->
    prepare (file_db w path) sql = Ok (Some st, tail) ->
    run st (file_db w path) (noise w) = (rows, d', Some e) ->
    files w' = <[path := d']> (files w) -> P w').
  { intros w' st tail rows d' H1 H2 H3 H4. right. exists st, tail, rows, d'. auto. }
  clearbody P.
  destruct Hf as [e' Hp|st tail Hp Ht|st tail rows d' e' Hp Ht Hr]; run_execute Ho;
    rewrite Hp.
  - apply (raised_world P path w _ _ (fresh_connection path) [Execute (next_handle w) sql]);
      try apply HP; world_simpl; rewrite ?insert_insert_eq; try reflexivity; lia.
  - destruct (lstrip_sql tail) as [|c t] eqn:E; [congruence|].
    apply (raised_world P path w _ _ (fresh_connection path) [Execute (next_handle w) sql]);
      try apply HP; world_simpl; rewrite ?insert_insert_eq; try reflexivity; lia.
  - rewrite Ht, Hr. destruct (is_dml sql) eqn:Ed; destruct rows as [|r rows];
      world_simpl; rewrite ?lookup_insert_eq; world_simpl.
    + eapply (raised_world P path w _ _ _ [Execute (next_handle w) sql]);
        try apply HP; world_simpl; rewrite ?insert_insert_eq; try reflexivity; lia.
    + eapply (raised_world P path w _ _ _
                [Execute (next_handle w) sql; Fetchall (next_handle w)]);
        try apply HP; world_simpl; rewrite ?insert_insert_eq, <- ?app_assoc;
        try reflexivity; lia.
    + eapply (raised_world P path w _ _ _ [Execute (next_handle w) sql]);
        try (eapply (HR _ st tail []); [reflexivity|exact Hp|exact Hr|]);
        world_simpl; rewrite ?insert_insert_eq; try reflexivity; lia.
    + eapply (raised_world P path w _ _ _
                [Execute (next_handle w) sql; Fetchall (next_handle w)]);
        try (eapply (HR _ st tail (r :: rows)); [reflexivity|exact Hp|exact Hr|]);
        world_simpl; rewrite ?insert_insert_eq, <- ?app_assoc; try reflexivity; lia.
Qed.

Lemma execute_sql_fails sql path w e :
  openable w path = true ->
  fails (file_db w path) (noise w) sql e ->
  exists w', execute_sql sql path w = (Raised (Failure e), w') /\ left_open path w w'.
Proof.
  intros Ho Hf.
  destruct (execute_sql_fails_world _ _ _ _ Ho Hf)
    as (w' & c & He & Hc & Hp & _ & _ & _ & _ & _ & _ & Ht & Hs & _).
  exists w'. split; [exact He|]. unfold left_open.
  split; [exists c; rewrite Hc, lookup_insert_eq; auto|]. auto.
Qed.

Lemma execute_sql_multiple sql path w st tail :
  openable w path = true ->
  prepare (file_db w path) sql = Ok (st, tail) -> lstrip_sql tail <> [] ->
  execute_sql sql path w
  = (Raised (Failure one_statement_only), record (Execute (next_handle w) sql) (connected path w)).
Proof.
  intros Ho Hp Ht. run_execute Ho. rewrite Hp.
  destruct (lstrip_sql tail); [congruence|reflexivity].
Qed.

End Execution.

(** ** The two steps and the page *)

Section Application.
Context `{Engine}.

(** Every text either succeeds or fails. *)
Lemma outcome_cases d n sql :
  (exists rows d', succeeds d n sql rows d') \/ (exists e, fails d n sql e).
Proof.
  destruct (prepare d sql) as [[st tail]|e] eqn:Hp.
  - destruct (lstrip_sql tail) as [|c t] eqn:Ht.
    + destruct st as [st|].
      * destruct (run st d n) as [[rows d'] [e|]] eqn:Hr.
        -- right. exists e. eapply fails_run; eauto.
        -- left. exists rows, d'. eapply succeeds_run; eauto.
      * left. exists [], d. eapply succeeds_empty; eauto.
    + right. exists one_statement_only. eapply fails_multiple; eauto.
      rewrite Ht. discriminate.
  - right. exists e. now apply fails_prepare.
Qed.



Lemma execute_sql_succeeds sql path w rows d' :
  openable w path = true ->
  succeeds (file_db w path) (noise w) sql rows d' ->
  exists stored ran,
    execute_sql sql path w = (Returned rows, finished path sql stored ran w)
    /\ (ran <= 1)%nat.
Proof.
  intros Ho [tail Hp Ht|st tail rows' d'' Hp Ht Hr].
  - exists None, 0%nat. split; [eapply execute_sql_empty; eauto|lia].
  - eexists _, 1%nat. split; [eapply execute_sql_ran; eauto|lia].
Qed.

Lemma execute_sql_runs_at_most_one sql path w :
  (statements_run (snd (execute_sql sql path w)) <= S (statements_run w))%nat.
Proof.
  destruct (openable w path) eqn:Ho.
  - destruct (outcome_cases (file_db w path) (noise w) sql) as [(rows & d' & Hs)|(e & Hf)].
    + destruct (execute_sql_succeeds _ _ _ _ _ Ho Hs) as (s1 & n1 & -> & Hn). cbn. lia.
    + destruct (execute_sql_fails _ _ _ _ Ho Hf) as (w1 & -> & Hl). cbn. apply Hl.
  - rewrite (execute_sql_refused _ _ _ Ho). cbn. lia.
Qed.

(** [execute_sql] leaves the endpoint, the widgets and what lies outside the
    database as they were. *)
Lemma execute_sql_frame sql path w :
  requests (snd (execute_sql sql path w)) = requests w
  /\ genai_service (snd (execute_sql sql path w)) = genai_service w
  /\ widgets (snd (execute_sql sql path w)) = widgets w
  /\ openable (snd (execute_sql sql path w)) = openable w
  /\ entropy (snd (execute_sql sql path w)) = entropy w.
Proof.
  destruct (openable w path) eqn:Ho.
  - destruct (outcome_cases (file_db w path) (noise w) sql) as [(rows & d' & Hs)|(e & Hf)].
    + destruct (execute_sql_succeeds _ _ _ _ _ Ho Hs) as (s1 & n1 & -> & _).
      repeat split; reflexivity.
    + destruct (execute_sql_fails_world _ _ _ _ Ho Hf)
        as (w1 & c & -> & _ & _ & _ & H1 & H2 & H3 & H4 & H5 & _).
      cbn [snd]. auto.
  - rewrite (execute_sql_refused _ _ _ Ho). repeat split; reflexivity.
Qed.


Lemma get_sql_query_spec question w :
  get_sql_query question w = (translation w question, asked question w).
Proof.
  unfold get_sql_query, translation, mbind, M_bind, generate_content, text.
  fold (request_for question). fold (asked question w).
  destruct (genai_service w (requests w) (request_for question)) as [[[raw|e]]|e];
    reflexivity.
Qed.


(** The two steps raise library errors only. *)
Lemma get_sql_query_raises question w x w' :
  get_sql_query question w = (Raised x, w') -> exists e, x = Failure e.
Proof.
  rewrite get_sql_query_spec. unfold translation.
  destruct (genai_service w (requests w) (request_for question)) as [[[raw|e]]|e];
    intros [= <- _]; eauto.
Qed.

Lemma execute_sql_raises sql path w x w' :
  execute_sql sql path w = (Raised x, w') -> exists e, x = Failure e.
Proof.
  destruct (openable w path) eqn:Ho.
  - destruct (outcome_cases (file_db w path) (noise w) sql) as [(rows & d' & Hs)|(e & Hf)].
    + destruct (execute_sql_succeeds _ _ _ _ _ Ho Hs) as (s1 & n1 & -> & _). discriminate.
    + destruct (execute_sql_fails _ _ _ _ Ho Hf) as (w1 & -> & _). intros [= <- _]. eauto.
  - rewrite (execute_sql_refused _ _ _ Ho). intros [= <- _]. eauto.
Qed.

Lemma get_sql_query_answer question raw w :
  answers w question raw ->
  get_sql_query question w
  = (Returned (strip (replace fence [] (replace fence_sql [] (strip raw)))),
     asked question w).
Proof.
  intros Ha. rewrite get_sql_query_spec. unfold translation.
  unfold answers in Ha. now rewrite Ha.
Qed.

Lemma str_eqb_nil q : str_eqb q [] = false <-> q <> [].
Proof. destruct q; simpl; split; congruence. Qed.

(** The text the handler of the query page shows for a library error. *)
Lemma error_message_failure err :
  error_message (Failure err) = [10060] ++ py " Error: " ++ error_str err.
Proof. reflexivity. Qed.

(** The query page, step by step. *)
Lemma page_query_unfold w :
  page_query w =
  let question := text_input (widgets w) in
  if button_pressed (widgets w) && negb (str_eqb question []) then
    match get_sql_query question (page_opened w) with
    | (Returned sql, w2) =>
        match execute_sql sql (py "data.db") (sql_shown sql w2) with
        | (Returned results, w3) =>
            (Returned tt,
             record (StTable results) (record (StSubheader (py "Query Result:")) w3))
        | (Raised e, w3) =>
            if is_Exception e
            then (Returned tt, record (StError (error_message e)) w3)
            else (Raised e, w3)
        end
    | (Raised e, w2) =>
        if is_Exception e
        then (Returned tt, record (StError (error_message e)) w2)
        else (Raised e, w2)
    end
  else (Returned tt, page_opened w).
Proof.
  unfold page_query, mbind, M_bind, st_markdown, st_text_input, st_button, call.
  cbn [widgets record set_trace].
  fold (page_opened w).
  destruct (button_pressed (widgets w) && negb (str_eqb (text_input (widgets w)) []));
    [|reflexivity].
  unfold try_except_Exception, st_success, st_code, st_subheader, st_table, st_error, call.
  destruct (get_sql_query _ _) as [[sql|e] w2]; [|reflexivity].
  fold (sql_shown sql w2).
  destruct (execute_sql _ _ _) as [[rows|e] w3]; reflexivity.
Qed.

Lemma script_without_key w :
  truthy ((environ w ∪ dotenv_file w) !! py "GOOGLE_API_KEY") = false ->
  script w = (Raised StopException, stopped_without_key w).
Proof.
  intros Hk. unfold script, mbind, M_bind, load_dotenv, os_getenv.
  cbn [environ set_environ record set_trace]. rewrite Hk. reflexivity.
Qed.

End Application.

(** ** The statements of the reference engine *)

Section Reference.
Import MiniSQL.




End Reference.

(** * The claims *)

Section Claims.
Context `{Engine}.

(** C1 (amended).  When the endpoint answers with text [raw],
    [get_sql_query] returns a string without the substring of three
    backticks (so without the fence followed by sql too) and without
    white space at either end; and when [raw] is a fenced block whose tag
    and body hold no backtick, the returned string holds no backtick at
    all. *)
Theorem get_sql_query_removes_fences question raw w :
  answers w question raw ->
  exists sql,
    get_sql_query question w = (Returned sql, asked question w)
    /\ contains fence sql = false
    /\ contains fence_sql sql = false
    /\ (forall c, head sql = Some c -> isspace c = false)
    /\ (forall c, last sql = Some c -> isspace c = false)
    /\ (forall tag body,
          raw = fenced_response tag body ->
          backtick ∉ tag -> backtick ∉ body -> backtick ∉ sql).
Proof.
  intros Ha. eexists. split; [exact (get_sql_query_answer _ _ _ Ha)|].
  destruct (cleanup_no_fence (replace fence_sql [] (strip raw))) as [H1 H2].
  split; [exact H1|]. split; [exact H2|].
  split; [intros c; apply strip_head|]. split; [intros c; apply strip_last|].
  intros tag body -> Ht Hb.
  now apply cleanup_fenced, fenced_response_fenced.
Qed.

(** C2 (amended).  A statement that compiles and runs to its end is handed
    to the engine as it is, between connect and close and nothing else; what
    it wrote reaches the file exactly when the module ran it outside a
    transaction.  A text that starts with INSERT, UPDATE or DELETE runs in
    a transaction that is never committed and leaves the file as it was; a
    text that starts with DROP is committed to the file.  The path is one
    at which a database can be opened. *)
Theorem write_reaches_file_only_in_autocommit sql path w st tail rows d' :
  openable w path = true ->
  prepare (file_db w path) sql = Ok (Some st, tail) ->
  lstrip_sql tail = [] ->
  run st (file_db w path) (noise w) = (rows, d', None) ->
  exists w',
    execute_sql sql path w = (Returned rows, w')
    /\ trace w' = trace w ++ full_call_sequence path (next_handle w) sql
    /\ files w' = (if is_dml sql then files w else <[path := d']> (files w))
    /\ (forall rest,
          sql = py "INSERT" ++ rest \/ sql = py "UPDATE" ++ rest
          \/ sql = py "DELETE" ++ rest ->
          files w' = files w)
    /\ (forall rest, sql = py "DROP" ++ rest -> files w' = <[path := d']> (files w)).
Proof.
  intros Ho Hp Ht Hr. eexists. split; [eapply execute_sql_ran; eauto|].
  split; [reflexivity|].
  assert (Hf : files (finished path sql (if is_dml sql then None else Some d') 1 w)
               = (if is_dml sql then files w else <[path := d']> (files w))).
  { cbn. now destruct (is_dml sql). }
  split; [exact Hf|]. rewrite Hf. split.
  - intros rest [-> | [-> | ->]]; reflexivity.
  - intros rest ->. reflexivity.
Qed.

(** C3.  When the execution of the statement raises on the connection
    [execute_sql] has opened, [execute_sql] raises the same exception and
    that connection is still open: no close was called. *)
Theorem execute_sql_raise_leaves_connection_open sql path w e :
  openable w path = true ->
  fails (file_db w path) (noise w) sql e ->
  exists w',
    execute_sql sql path w = (Raised (Failure e), w')
    /\ (exists c, conns w' !! next_handle w = Some c /\ conn_path c = path)
    /\ (exists evs, trace w' = trace w ++ Connect path (next_handle w) :: evs
                    /\ forallb (fun ev => negb (is_close ev)) evs = true).
Proof.
  intros Ho Hf. destruct (execute_sql_fails _ _ _ _ Ho Hf) as (w' & He & Hc & Ht & _).
  exists w'. auto.
Qed.

(** C4.  When the execution of the text succeeds, [execute_sql] connects to
    the given path on a new handle, executes the text as it is, fetches,
    closes, and returns the rows the engine produced for that text; the
    handle is closed afterwards. *)
Theorem execute_sql_returns_rows sql path w rows d' :
  openable w path = true ->
  succeeds (file_db w path) (noise w) sql rows d' ->
  exists w',
    execute_sql sql path w = (Returned rows, w')
    /\ trace w' = trace w ++ full_call_sequence path (next_handle w) sql
    /\ conns w' !! next_handle w = None
    /\ next_handle w' = S (next_handle w).
Proof.
  intros Ho Hs.
  destruct (execute_sql_succeeds _ _ _ _ _ Ho Hs) as (stored & ran & He & _).
  eexists. split; [exact He|]. cbn [trace conns next_handle finished].
  split; [reflexivity|]. split; [apply lookup_delete_eq|reflexivity].
Qed.

(** C5.  On the query page with a question entered and the button pressed,
    whatever the translation or the execution raises is an error of one of
    the two libraries and is caught by the one handler around both: the
    page makes one more call, [st.error] with the cross mark, the text
    " Error: " and the text of the error, and returns normally, so nothing
    escapes and the next run of the script starts as usual. *)
Theorem page_query_catches_exceptions w e w' :
  button_pressed (widgets w) = true ->
  text_input (widgets w) <> [] ->
  step_raises w e w' ->
  exists err,
    e = Failure err
    /\ page_query w
       = (Returned tt,
          record (StError ([10060] ++ py " Error: " ++ error_str err)) w').
Proof.
  intros Hb Hq Hs. rewrite page_query_unfold. cbv zeta.
  apply str_eqb_nil in Hq. rewrite Hb, Hq. cbn [andb negb].
  destruct Hs as [w2 Hg|sql w2 w3 Hg Hx].
  - destruct (get_sql_query_raises _ _ _ _ Hg) as [err ->]. exists err.
    split; [reflexivity|]. now rewrite Hg.
  - destruct (execute_sql_raises _ _ _ _ _ Hx) as [err ->]. exists err.
    split; [reflexivity|]. now rewrite Hg, Hx.
Qed.

(** C6.  When the key is neither in the environment nor in the .env file,
    the script shows the error and stops: it raises the stop exception
    before the client is configured, and no call reached the generation
    service. *)
Theorem missing_key_stops_before_configure w :
  environ w !! py "GOOGLE_API_KEY" = None ->
  dotenv_file w !! py "GOOGLE_API_KEY" = None ->
  exists w',
    script w = (Raised StopException, w')
    /\ trace w' = trace w ++
         [LoadDotenv;
          StError ([10060] ++ py " GOOGLE_API_KEY not found in .env file");
          StStop]
    /\ forallb (fun ev => negb (is_external ev)) (drop (length (trace w)) (trace w')) = true
    /\ requests w' = requests w.
Proof.
  intros He Hd. exists (stopped_without_key w).
  split.
  - apply script_without_key.
    replace ((environ w ∪ dotenv_file w) !! py "GOOGLE_API_KEY") with (@None str);
      [reflexivity|].
    symmetry. apply lookup_union_None. auto.
  - assert (Ht : trace (stopped_without_key w) = trace w ++
         [LoadDotenv;
          StError ([10060] ++ py " GOOGLE_API_KEY not found in .env file");
          StStop]).
    { cbn. now rewrite <- !app_assoc. }
    split; [exact Ht|]. split; [|reflexivity].
    rewrite Ht, drop_app_length. reflexivity.
Qed.


(** C9.  When more text follows the first statement, [execute_sql] raises
    and no statement runs: the engine ran nothing and the file is as it
    was; on a path that can be opened the exception is the one
    [cursor.execute] raises for more than one statement.  And no call has
    the engine run more than one statement. *)
Theorem several_statements_raise sql path w st tail :
  prepare (file_db w path) sql = Ok (st, tail) ->
  lstrip_sql tail <> [] ->
  (exists e w',
     execute_sql sql path w = (Raised (Failure e), w')
     /\ statements_run w' = statements_run w
     /\ files w' = files w
     /\ (openable w path = true -> e = one_statement_only))
  /\ (forall sql' path' w0,
        (statements_run (snd (execute_sql sql' path' w0)) <= S (statements_run w0))%nat).
Proof.
  intros Hp Ht. split.
  - destruct (openable w path) eqn:Ho.
    + eexists _, _. split; [eapply execute_sql_multiple; eauto|].
      repeat split; reflexivity.
    + eexists _, _. split; [now apply execute_sql_refused|].
      split; [reflexivity|]. split; [reflexivity|discriminate].
  - apply execute_sql_runs_at_most_one.
Qed.

(** C10.  When the question is empty, or the button was not pressed, the
    query page only draws its widgets: no request is sent and no database
    is touched. *)
Theorem empty_question_runs_nothing w :
  text_input (widgets w) = [] \/ button_pressed (widgets w) = false ->
  page_query w = (Returned tt, page_opened w)
  /\ trace (page_opened w) = trace w ++ page_query_widgets
  /\ forallb (fun ev => negb (is_external ev)) page_query_widgets = true
  /\ requests (page_opened w) = requests w
  /\ files (page_opened w) = files w
  /\ conns (page_opened w) = conns w.
Proof.
  intros Hq. split.
  - rewrite page_query_unfold. cbv zeta.
    destruct Hq as [-> | ->]; [|reflexivity].
    cbn [str_eqb negb]. now rewrite andb_false_r.
  - split; [cbn; now rewrite <- !app_assoc|]. repeat split; reflexivity.
Qed.

End Claims.

Section ReferenceClaims.
Import MiniSQL.


End ReferenceClaims.

(** * Further properties *)

(** ** Replies without fences, and fenced replies *)

Lemma replace_absent old new s :
  old <> [] -> contains old s = false -> replace old new s = s.
Proof.
  intros Ho. induction s as [|c s IH]; intros Hc.
  - now apply replace_nil.
  - cbn [contains] in Hc. apply orb_false_iff in Hc as [H1 H2].
    rewrite replace_nomatch by assumption. now rewrite IH.
Qed.

Lemma lstrip_fixed s :
  (forall c, head s = Some c -> isspace c = false) -> lstrip s = s.
Proof.
  destruct s as [|c s]; [reflexivity|]. intros Hh. cbn [lstrip].
  now rewrite (Hh c eq_refl).
Qed.

Lemma rstrip_fixed s :
  (forall c, last s = Some c -> isspace c = false) -> rstrip s = s.
Proof.
  intros Hl. unfold rstrip. rewrite lstrip_fixed.
  - apply reverse_involutive.
  - intros c. rewrite head_reverse. apply Hl.
Qed.

Lemma strip_fixed s :
  (forall c, head s = Some c -> isspace c = false) ->
  (forall c, last s = Some c -> isspace c = false) ->
  strip s = s.
Proof.
  intros Hh Hl. unfold strip. rewrite (lstrip_fixed s Hh). now apply rstrip_fixed.
Qed.

Lemma strip_idempotent s : strip (strip s) = strip s.
Proof. apply strip_fixed; intros c; [apply strip_head|apply strip_last]. Qed.

Lemma lstrip_app_space s c :
  isspace c = true ->
  lstrip (s ++ [c]) = match lstrip s with [] => [] | _ :: _ => lstrip s ++ [c] end.
Proof.
  intros Hc. induction s as [|d s IH]; cbn [app lstrip].
  - now rewrite Hc.
  - destruct (isspace d); [exact IH|reflexivity].
Qed.

Lemma rstrip_app_space s c : isspace c = true -> rstrip (s ++ [c]) = rstrip s.
Proof.
  intros Hc. unfold rstrip. rewrite reverse_app. cbn [reverse rev_append app lstrip].
  change (reverse [c]) with [c]. cbn [app lstrip]. now rewrite Hc.
Qed.

Lemma strip_app_space s c : isspace c = true -> strip (s ++ [c]) = strip s.
Proof.
  intros Hc. unfold strip. rewrite (lstrip_app_space s c Hc).
  destruct (lstrip s) as [|d t]; [reflexivity|].
  now rewrite rstrip_app_space.
Qed.

Lemma replace_fence_plain a s :
  backtick ∉ a -> replace fence [] (a ++ s) = a ++ replace fence [] s.
Proof.
  induction a as [|c a IH]; intros Ha; [reflexivity|].
  apply not_elem_of_cons in Ha as [Hc Ha]. cbn [app].
  rewrite replace_fence_other by congruence. now rewrite IH.
Qed.

Lemma replace_fence_sql_plain a s :
  backtick ∉ a -> replace fence_sql [] (a ++ s) = a ++ replace fence_sql [] s.
Proof.
  induction a as [|c a IH]; intros Ha; [reflexivity|].
  apply not_elem_of_cons in Ha as [Hc Ha]. cbn [app].
  rewrite replace_fence_sql_other by congruence. now rewrite IH.
Qed.

Lemma fence_eq : fence = [backtick; backtick; backtick].
Proof. reflexivity. Qed.

Lemma replace_fence_sql_closing a :
  backtick ∉ a -> replace fence_sql [] (a ++ fence) = a ++ fence.
Proof. intros Ha. now rewrite replace_fence_sql_plain. Qed.

Lemma replace_fence_closing a :
  backtick ∉ a -> replace fence [] (a ++ fence) = a.
Proof.
  intros Ha. rewrite replace_fence_plain by assumption.
  change (replace fence [] fence) with (@nil N). apply app_nil_r.
Qed.

(** After the opening fence, the tag decides whether the six-character
    pattern matches. *)
Lemma startswith_fence_sql_tag tag s :
  startswith fence_sql (fence ++ tag ++ newline :: s) = startswith (py "sql") tag.
Proof.
  destruct tag as [|a [|b [|c t]]]; reflexivity.
Qed.

Lemma fenced_reply_cleaned tag body :
  backtick ∉ tag -> backtick ∉ body ->
  replace fence [] (replace fence_sql [] (fenced_response tag body))
  = without_sql tag ++ [newline] ++ body ++ [newline].
Proof.
  intros Ht Hb. unfold fenced_response, without_sql.
  assert (Hn : backtick ∉ [newline] ++ body ++ [newline]).
  { rewrite !elem_of_app, !list_elem_of_singleton. intros [H|[H|H]]; try discriminate H.
    now apply Hb. }
  assert (Hassoc : forall t : str,
    t ++ [newline] ++ body ++ [newline] ++ fence
    = (t ++ [newline] ++ body ++ [newline]) ++ fence).
  { intros t. now rewrite <- !app_assoc. }
  assert (Hplain : forall t : str, backtick ∉ t ->
    backtick ∉ t ++ [newline] ++ body ++ [newline]).
  { intros t Hn'. rewrite elem_of_app. intros [H|H]; auto. }
  pose proof (startswith_fence_sql_tag tag (body ++ [newline] ++ fence)) as Hs.
  destruct (startswith (py "sql") tag) eqn:E.
  - apply startswith_split in E. cbn [length py map list_ascii_of_string] in E.
    set (t := drop 3 tag) in *.
    assert (Htt : backtick ∉ t).
    { intros Hin. apply Ht. rewrite E, elem_of_app. now right. }
    rewrite E.
    change (replace fence []
              (replace fence_sql []
                 (fence_sql ++ t ++ [newline] ++ body ++ [newline] ++ fence))
            = t ++ [newline] ++ body ++ [newline]).
    rewrite (replace_match fence_sql [] _ fence_sql_nonempty). cbn [app].
    rewrite Hassoc, replace_fence_sql_closing by auto.
    now rewrite replace_fence_closing by auto.
  - assert (H0 : replace fence_sql [] (fence ++ tag ++ [newline] ++ body ++ [newline] ++ fence)
                 = fence ++ tag ++ [newline] ++ body ++ [newline] ++ fence).
    { rewrite (Hassoc tag).
      assert (Hy : exists y0 Y, (tag ++ [newline] ++ body ++ [newline]) = y0 :: Y
                                /\ y0 <> backtick).
      { destruct tag as [|a t]; [exists newline; eexists; split; [reflexivity|discriminate]|].
        exists a; eexists; split; [reflexivity|].
        intros ->. apply Ht. left. }
      destruct Hy as (y0 & Y & Hy & Hy0).
      assert (Hy0' : (96 =? y0) = false).
      { apply N.eqb_neq. intros <-. now apply Hy0. }
      assert (H1 : startswith fence_sql
                     (backtick :: backtick :: backtick ::
                      (tag ++ [newline] ++ body ++ [newline]) ++ fence) = false).
      { rewrite <- Hassoc. exact Hs. }
      assert (Hpl := Hplain tag Ht).
      set (P := tag ++ [newline] ++ body ++ [newline]) in *.
      assert (H2 : startswith fence_sql (backtick :: backtick :: P ++ fence) = false).
      { rewrite Hy, fence_sql_eq. cbn [app startswith]. unfold backtick.
        rewrite Hy0'. now rewrite ?andb_false_r. }
      assert (H3 : startswith fence_sql (backtick :: P ++ fence) = false).
      { rewrite Hy, fence_sql_eq. cbn [app startswith]. unfold backtick.
        rewrite Hy0'. now rewrite ?andb_false_r. }
      change (fence ++ P ++ fence) with (backtick :: backtick :: backtick :: P ++ fence).
      rewrite (replace_nomatch fence_sql [] _ _ fence_sql_nonempty H1).
      rewrite (replace_nomatch fence_sql [] _ _ fence_sql_nonempty H2).
      rewrite (replace_nomatch fence_sql [] _ _ fence_sql_nonempty H3).
      now rewrite replace_fence_sql_closing by exact Hpl. }
    rewrite H0, (Hassoc tag).
    change (fence ++ (tag ++ [newline] ++ body ++ [newline]) ++ fence)
      with (backtick :: backtick :: backtick ::
            (tag ++ [newline] ++ body ++ [newline]) ++ fence).
    rewrite replace_fence_match. now rewrite replace_fence_closing by auto.
Qed.

Lemma last_closing_fence (a : str) : last (a ++ fence) = Some backtick.
Proof. now rewrite last_app. Qed.

Lemma strip_fenced_response tag body :
  strip (fenced_response tag body) = fenced_response tag body.
Proof.
  apply strip_fixed.
  - intros c [= <-]. reflexivity.
  - intros c. unfold fenced_response.
    replace (fence ++ tag ++ [newline] ++ body ++ [newline] ++ fence)
      with ((fence ++ tag ++ [newline] ++ body ++ [newline]) ++ fence)
      by now rewrite <- !app_assoc.
    rewrite last_closing_fence. intros [= <-]. reflexivity.
Qed.

Section Translation.
Context `{Engine}.

(** X1.  A reply without three backticks in a row comes back stripped of
    the white space at its ends and otherwise as it is. *)
Theorem get_sql_query_plain_reply question raw w :
  answers w question raw ->
  contains fence raw = false ->
  get_sql_query question w = (Returned (strip raw), asked question w).
Proof.
  intros Ha Hc. rewrite (get_sql_query_answer _ _ _ Ha).
  assert (Hs : contains fence (strip raw) = false) by now apply contains_strip.
  assert (Hq : contains fence_sql (strip raw) = false).
  { destruct (contains fence_sql (strip raw)) eqn:E; [|reflexivity].
    apply (contains_prefix fence (py "sql")) in E. congruence. }
  rewrite (replace_absent fence_sql [] _ fence_sql_nonempty Hq).
  rewrite (replace_absent fence [] _ fence_nonempty Hs).
  now rewrite strip_idempotent.
Qed.

(** X2.  A fenced reply whose tag and body hold no backtick comes back as
    the tag without a leading sql, a newline and the body, stripped: with
    the tag sql that is the stripped body, and any other tag stays in front
    of the statement. *)
Theorem get_sql_query_fenced_reply question tag body w :
  answers w question (fenced_response tag body) ->
  backtick ∉ tag -> backtick ∉ body ->
  get_sql_query question w
  = (Returned (strip (without_sql tag ++ [newline] ++ body)), asked question w)
  /\ (tag = py "sql" -> strip (without_sql tag ++ [newline] ++ body) = strip body)
  /\ (startswith (py "sql") tag = false -> without_sql tag = tag).
Proof.
  intros Ha Ht Hb. split; [|split].
  - rewrite (get_sql_query_answer _ _ _ Ha), strip_fenced_response.
    rewrite (fenced_reply_cleaned tag body Ht Hb).
    replace (without_sql tag ++ [newline] ++ body ++ [newline])
      with ((without_sql tag ++ [newline] ++ body) ++ [newline])
      by now rewrite <- !app_assoc.
    now rewrite strip_app_space.
  - intros ->. reflexivity.
  - intros E. unfold without_sql. now rewrite E.
Qed.

(** X4.  Cleaning is idempotent: a statement [get_sql_query] has returned,
    given back as a reply, is returned unchanged. *)
Theorem get_sql_query_clean_again question raw sql w w1 w2 :
  answers w question raw ->
  get_sql_query question w = (Returned sql, w1) ->
  answers w2 question sql ->
  get_sql_query question w2 = (Returned sql, asked question w2).
Proof.
  intros Ha Hg Ha2. rewrite (get_sql_query_answer _ _ _ Ha) in Hg.
  injection Hg as <- _.
  destruct (cleanup_no_fence (replace fence_sql [] (strip raw))) as [Hc _].
  rewrite (get_sql_query_plain_reply _ _ _ Ha2 Hc).
  now rewrite strip_idempotent.
Qed.

(** X5.  Whatever the endpoint does, [get_sql_query] sends one request, the
    prompt followed by the question, and touches no database; a failure of
    the endpoint, or a reply without text, is raised as it is. *)
Theorem get_sql_query_one_request question w r w' :
  get_sql_query question w = (r, w') ->
  trace w' = trace w ++ [GenerateContent (PROMPT ++ py "
Question: " ++ question)]
  /\ requests w' = S (requests w)
  /\ files w' = files w /\ conns w' = conns w
  /\ (forall e,
        genai_service w (requests w) (request_for question) = Failed e ->
        r = Raised (Failure e))
  /\ (forall e,
        genai_service w (requests w) (request_for question)
        = Ok {| response_text := Failed e |} ->
        r = Raised (Failure e)).
Proof.
  rewrite get_sql_query_spec. intros [= <- <-].
  repeat (split; [reflexivity|]). unfold translation.
  split; intros e ->; reflexivity.
Qed.

(** X3.  Text in front of the fenced block is kept: a reply that starts
    with text without backticks, not beginning with white space, and goes
    on with a fenced block comes back as that text, the tag without a
    leading sql, a newline and the body, stripped. *)
Theorem get_sql_query_keeps_text_before_fence question pre tag body w :
  answers w question (pre ++ fenced_response tag body) ->
  (forall c, head pre = Some c -> isspace c = false) ->
  backtick ∉ pre -> backtick ∉ tag -> backtick ∉ body ->
  get_sql_query question w
  = (Returned (strip (pre ++ without_sql tag ++ [newline] ++ body)), asked question w).
Proof.
  intros Ha Hh Hp Ht Hb. rewrite (get_sql_query_answer _ _ _ Ha).
  assert (Hs : strip (pre ++ fenced_response tag body) = pre ++ fenced_response tag body).
  { apply strip_fixed.
    - destruct pre as [|p pre']; [intros c [= <-]; reflexivity|exact Hh].
    - intros c. unfold fenced_response.
      replace (pre ++ fence ++ tag ++ [newline] ++ body ++ [newline] ++ fence)
        with ((pre ++ fence ++ tag ++ [newline] ++ body ++ [newline]) ++ fence)
        by now rewrite <- !app_assoc.
      rewrite last_closing_fence. intros [= <-]. reflexivity. }
  rewrite Hs, (replace_fence_sql_plain pre _ Hp), (replace_fence_plain pre _ Hp).
  rewrite (fenced_reply_cleaned tag body Ht Hb).
  replace (pre ++ without_sql tag ++ [newline] ++ body ++ [newline])
    with ((pre ++ without_sql tag ++ [newline] ++ body) ++ [newline])
    by now rewrite <- !app_assoc.
  now rewrite strip_app_space.
Qed.

End Translation.

(** ** Connections and handles *)

Section Connections.
Context `{Engine}.



End Connections.

(** ** The pages and the module body *)

Section Pages.
Context `{Engine}.

Lemma execute_sql_requests sql path w :
  requests (snd (execute_sql sql path w)) = requests w.
Proof. apply execute_sql_frame. Qed.

Lemma translation_raises_failure w question x :
  translation w question = Raised x -> exists e, x = Failure e.
Proof.
  unfold translation.
  destruct (genai_service w (requests w) (request_for question)) as [[[raw|e]]|e];
    intros [= <-]; eauto.
Qed.

Lemma page_query_submitted w :
  button_pressed (widgets w) = true ->
  text_input (widgets w) <> [] ->
  button_pressed (widgets w) && negb (str_eqb (text_input (widgets w)) []) = true.
Proof. intros -> Hq. apply str_eqb_nil in Hq. now rewrite Hq. Qed.

(** X7.  With a question submitted, a translation that returns [sql] and an
    execution that succeeds with [rows], the query page shows the statement
    it got, runs that same statement on data.db, and shows the rows; these
    are all its calls, in this order. *)
Theorem page_query_shows_result w sql rows d' :
  button_pressed (widgets w) = true ->
  text_input (widgets w) <> [] ->
  translation w (text_input (widgets w)) = Returned sql ->
  openable w (py "data.db") = true ->
  succeeds (file_db w (py "data.db")) (noise w) sql rows d' ->
  exists w',
    page_query w = (Returned tt, w')
    /\ trace w' = trace w
         ++ statement_shown (text_input (widgets w)) sql
         ++ full_call_sequence (py "data.db") (next_handle w) sql
         ++ [StSubheader (py "Query Result:"); StTable rows].
Proof.
  intros Hb Hq Ht Ho Hs. rewrite page_query_unfold. cbv zeta.
  rewrite (page_query_submitted w Hb Hq), get_sql_query_spec.
  change (translation (page_opened w) (text_input (widgets w)))
    with (translation w (text_input (widgets w))).
  rewrite Ht.
  destruct (execute_sql_succeeds sql (py "data.db")
              (sql_shown sql (asked (text_input (widgets w)) (page_opened w))) rows d'
              Ho Hs)
    as (stored & ran & -> & _).
  eexists. split; [reflexivity|].
  cbn [trace record set_trace set_requests finished sql_shown asked page_opened
       next_handle].
  unfold statement_shown, page_query_widgets, full_call_sequence.
  now rewrite <- !app_assoc.
Qed.

(** X8.  With a question submitted and a translation that raises, the query
    page shows the error after its one request and never reaches the
    database: no connection is opened and no statement runs. *)
Theorem page_query_translation_error w x :
  button_pressed (widgets w) = true ->
  text_input (widgets w) <> [] ->
  translation w (text_input (widgets w)) = Raised x ->
  exists w',
    page_query w = (Returned tt, w')
    /\ trace w' = trace w ++ page_query_widgets
         ++ [GenerateContent (request_for (text_input (widgets w)));
             StError (error_message x)]
    /\ files w' = files w /\ conns w' = conns w
    /\ next_handle w' = next_handle w
    /\ statements_run w' = statements_run w.
Proof.
  intros Hb Hq Ht. rewrite page_query_unfold. cbv zeta.
  rewrite (page_query_submitted w Hb Hq), get_sql_query_spec.
  change (translation (page_opened w) (text_input (widgets w)))
    with (translation w (text_input (widgets w))).
  rewrite Ht. destruct (translation_raises_failure _ _ _ Ht) as [e ->].
  cbn [is_Exception]. eexists. split; [reflexivity|].
  split; [|repeat split; reflexivity].
  cbn. unfold page_query_widgets. now rewrite <- !app_assoc.
Qed.

(** X9.  With a question submitted, a translation that returns [sql] and an
    execution that raises on the connection opened on data.db, the
    statement is on the page before the error message, which is the cross
    mark, " Error: " and the text of the error; the connection opened for
    the statement is still open when the page has handled the error.  The
    file is as it was, unless the statement ran outside a transaction and
    failed part way: then the file holds what the statement left. *)
Theorem page_query_execution_error w sql e :
  button_pressed (widgets w) = true ->
  text_input (widgets w) <> [] ->
  translation w (text_input (widgets w)) = Returned sql ->
  openable w (py "data.db") = true ->
  fails (file_db w (py "data.db")) (noise w) sql e ->
  exists w' evs,
    page_query w = (Returned tt, w')
    /\ trace w' = trace w
         ++ statement_shown (text_input (widgets w)) sql
         ++ Connect (py "data.db") (next_handle w) :: evs
         ++ [StError ([10060] ++ py " Error: " ++ error_str e)]
    /\ forallb (fun ev => negb (is_close ev)) evs = true
    /\ (exists c, conns w' !! next_handle w = Some c /\ conn_path c = py "data.db")
    /\ (files w' = files w
        \/ exists st tail rows d',
             is_dml sql = false
             /\ prepare (file_db w (py "data.db")) sql = Ok (Some st, tail)
             /\ run st (file_db w (py "data.db")) (noise w) = (rows, d', Some e)
             /\ files w' = <[py "data.db" := d']> (files w))
    /\ (is_dml sql = true -> files w' = files w).
Proof.
  intros Hb Hq Ht Ho Hf. rewrite page_query_unfold. cbv zeta.
  rewrite (page_query_submitted w Hb Hq), get_sql_query_spec.
  change (translation (page_opened w) (text_input (widgets w)))
    with (translation w (text_input (widgets w))).
  rewrite Ht.
  destruct (execute_sql_fails_world sql (py "data.db")
              (sql_shown sql (asked (text_input (widgets w)) (page_opened w))) e Ho Hf)
    as (w1 & c & -> & Hc & Hp & _ & _ & _ & _ & _ & _ & (evs & Htr & Hev) & _ & Hfiles).
  cbn [is_Exception].
  exists (record (StError (error_message (Failure e))) w1), evs.
  split; [reflexivity|]. split; [|split; [exact Hev|split; [|split]]].
  - cbn [trace record set_trace]. rewrite Htr.
    cbn [trace record set_trace set_requests sql_shown asked page_opened next_handle].
    unfold statement_shown, page_query_widgets.
    rewrite <- !app_assoc. cbn [app]. rewrite <- ?app_assoc. reflexivity.
  - exists c. split; [|exact Hp].
    cbn [conns record set_trace]. rewrite Hc. apply lookup_insert_eq.
  - exact Hfiles.
  - intros Hd. destruct Hfiles as [Hsame|(st & tail & rows & d' & Hn & _)];
      [exact Hsame|congruence].
Qed.

(** X15.  With a question submitted and a translation that returns [sql],
    when no database can be opened at data.db the statement is shown, the
    connect fails and the page shows its error; no handle is taken, no
    connection is left, nothing is executed and the files are as they
    were. *)
Theorem page_query_connect_error w sql :
  button_pressed (widgets w) = true ->
  text_input (widgets w) <> [] ->
  translation w (text_input (widgets w)) = Returned sql ->
  openable w (py "data.db") = false ->
  exists w',
    page_query w = (Returned tt, w')
    /\ trace w' = trace w
         ++ statement_shown (text_input (widgets w)) sql
         ++ [ConnectFailed (py "data.db");
             StError ([10060] ++ py " Error: unable to open database file")]
    /\ conns w' = conns w
    /\ next_handle w' = next_handle w
    /\ files w' = files w
    /\ statements_run w' = statements_run w.
Proof.
  intros Hb Hq Ht Ho. rewrite page_query_unfold. cbv zeta.
  rewrite (page_query_submitted w Hb Hq), get_sql_query_spec.
  change (translation (page_opened w) (text_input (widgets w)))
    with (translation w (text_input (widgets w))).
  rewrite Ht.
  rewrite (execute_sql_refused sql (py "data.db")
             (sql_shown sql (asked (text_input (widgets w)) (page_opened w))) Ho).
  cbn [is_Exception]. eexists. split; [reflexivity|].
  split; [|repeat split; reflexivity].
  cbn [trace record set_trace set_requests sql_shown asked page_opened refused].
  unfold statement_shown, page_query_widgets.
  rewrite <- !app_assoc. reflexivity.
Qed.

(** X10.  One run of the query page sends exactly one request when a
    question is submitted and none otherwise, and has the engine run at
    most one statement. *)
Theorem page_query_request_count w :
  requests (snd (page_query w))
  = (if button_pressed (widgets w) && negb (str_eqb (text_input (widgets w)) [])
     then S (requests w) else requests w)
  /\ (statements_run (snd (page_query w)) <= S (statements_run w))%nat.
Proof.
  rewrite page_query_unfold. cbv zeta.
  destruct (button_pressed (widgets w) && negb (str_eqb (text_input (widgets w)) []));
    [|split; [reflexivity|cbn; lia]].
  rewrite get_sql_query_spec.
  destruct (translation (page_opened w) (text_input (widgets w))) as [sql|x] eqn:Ht.
  - pose proof (execute_sql_requests sql (py "data.db")
                  (sql_shown sql (asked (text_input (widgets w)) (page_opened w)))) as Hr.
    pose proof (execute_sql_runs_at_most_one sql (py "data.db")
                  (sql_shown sql (asked (text_input (widgets w)) (page_opened w)))) as Hn.
    destruct (execute_sql _ _ _) as [[rows|x] w3]; cbn [snd] in Hr, Hn.
    + split; [exact Hr|exact Hn].
    + destruct (is_Exception x); split; solve [exact Hr | exact Hn].
  - destruct (is_Exception x); split; solve [reflexivity | cbn; lia].
Qed.


End Pages.

Section Startup.
Context `{Engine}.

(** X12.  On the Home and the About page, [main] draws and returns: no call
    reaches the generation service or a database, and requests, files and
    connections are as they were. *)
Theorem main_home_about_quiet w :
  radio_choice (widgets w) = py "Home" \/ radio_choice (widgets w) = py "About" ->
  exists w',
    main w = (Returned tt, w')
    /\ quiet (new_events w w') = true
    /\ requests w' = requests w
    /\ files w' = files w
    /\ conns w' = conns w
    /\ next_handle w' = next_handle w.
Proof.
  intros Hc.
  unfold main, mbind, M_bind, st_set_page_config, st_sidebar_title, st_sidebar_radio, call.
  cbn [widgets record set_trace].
  destruct Hc as [-> | ->].
  - change (str_eqb (py "Home") (py "Home")) with true. cbv iota.
    unfold page_home, mbind, M_bind, st_markdown, st_image, call.
    eexists. split; [reflexivity|]. split; [|repeat split; reflexivity].
    unfold new_events. cbn [trace record set_trace].
    rewrite <- !app_assoc, drop_app_length. reflexivity.
  - change (str_eqb (py "About") (py "Home")) with false.
    change (str_eqb (py "About") (py "About")) with true. cbv iota.
    unfold page_about, mbind, M_bind, st_markdown, call.
    eexists. split; [reflexivity|]. split; [|repeat split; reflexivity].
    unfold new_events. cbn [trace record set_trace].
    rewrite <- !app_assoc, drop_app_length. reflexivity.
Qed.

(** X13.  With a non-empty key, the module body configures the client with
    it and creates the model before [main] runs; a key in the environment
    is taken before one in .env, which is used when the environment has
    none. *)
Theorem script_configures_with_key w k :
  k <> [] ->
  environ w !! py "GOOGLE_API_KEY" = Some k
  \/ (environ w !! py "GOOGLE_API_KEY" = None
      /\ dotenv_file w !! py "GOOGLE_API_KEY" = Some k) ->
  script w = main (configured k w)
  /\ trace (configured k w)
     = trace w ++ [LoadDotenv; Configure k; GenerativeModel (py "gemini-1.5-flash")].
Proof.
  intros Hk Hkey.
  assert (Hu : (environ w ∪ dotenv_file w) !! py "GOOGLE_API_KEY" = Some k).
  { destruct Hkey as [He|[He Hd]].
    - now apply lookup_union_Some_l.
    - now rewrite lookup_union_r. }
  split.
  - unfold script, mbind, M_bind, load_dotenv, os_getenv.
    cbn [environ set_environ record set_trace]. rewrite Hu.
    destruct k as [|c k]; [congruence|]. reflexivity.
  - cbn. now rewrite <- !app_assoc.
Qed.

(** X14.  An empty key stops the script like a missing one; an empty value
    in the environment does so whatever .env holds. *)
Theorem script_empty_key_stops w :
  environ w !! py "GOOGLE_API_KEY" = Some []
  \/ (environ w !! py "GOOGLE_API_KEY" = None
      /\ dotenv_file w !! py "GOOGLE_API_KEY" = Some []) ->
  script w = (Raised StopException, stopped_without_key w)
  /\ quiet (new_events w (stopped_without_key w)) = true.
Proof.
  intros Hkey.
  assert (Hu : (environ w ∪ dotenv_file w) !! py "GOOGLE_API_KEY" = Some []).
  { destruct Hkey as [He|[He Hd]].
    - now apply lookup_union_Some_l.
    - now rewrite lookup_union_r. }
  split.
  - apply script_without_key. now rewrite Hu.
  - unfold new_events. cbn [trace stopped_without_key record set_trace set_environ].
    rewrite <- !app_assoc, drop_app_length. reflexivity.
Qed.

End Startup.

(** ** Concrete runs *)

Import MiniSQL.

Lemma get_sql_query_removes_fences_witness :
  answers world0 question fenced_count
  /\ exists sql,
       get_sql_query question world0 = (Returned sql, asked question world0)
       /\ contains fence sql = false
       /\ contains fence_sql sql = false
       /\ (forall c, head sql = Some c -> isspace c = false)
       /\ (forall c, last sql = Some c -> isspace c = false)
       /\ (forall tag body,
             fenced_count = fenced_response tag body ->
             backtick ∉ tag -> backtick ∉ body -> backtick ∉ sql).
Proof.
  split; [reflexivity|].
  apply (get_sql_query_removes_fences question fenced_count). reflexivity.
Defined.

(** C1, as stated, fails: a fenced reply whose statement quotes a column
    name with backticks keeps those backticks. *)
Lemma quoted_identifier_keeps_backticks :
  answers (sample_world (always (fenced_response (py "sql") quoted_name)) question true)
    question (fenced_response (py "sql") quoted_name)
  /\ fst (get_sql_query question
            (sample_world (always (fenced_response (py "sql") quoted_name)) question true))
     = Returned quoted_name
  /\ backtick ∈ quoted_name.
Proof.
  split; [reflexivity|]. split; [vm_compute; reflexivity|].
  apply list_elem_of_In. vm_compute. tauto.
Qed.

Lemma write_reaches_file_only_in_autocommit_witness :
  openable world0 data_db = true
  /\ prepare (file_db world0 data_db) drop_students
     = Ok (Some (DropTable (py "Students")), [])
  /\ lstrip_sql [] = []
  /\ run (DropTable (py "Students")) (file_db world0 data_db) (noise world0)
     = ([], [], None)
  /\ exists w',
       execute_sql drop_students data_db world0 = (Returned [], w')
       /\ trace w' = trace world0 ++ full_call_sequence data_db (next_handle world0) drop_students
       /\ files w' = (if is_dml drop_students then files world0
                      else <[data_db := []]> (files world0))
       /\ (forall rest,
             drop_students = py "INSERT" ++ rest \/ drop_students = py "UPDATE" ++ rest
             \/ drop_students = py "DELETE" ++ rest ->
             files w' = files world0)
       /\ (forall rest, drop_students = py "DROP" ++ rest ->
             files w' = <[data_db := []]> (files world0)).
Proof.
  split; [reflexivity|].
  split; [vm_compute; reflexivity|]. split; [reflexivity|].
  split; [vm_compute; reflexivity|].
  apply (write_reaches_file_only_in_autocommit drop_students data_db world0
           (DropTable (py "Students")) [] [] []);
    vm_compute; reflexivity.
Defined.

(** C2, as stated, fails: the DELETE empties the table in the transaction
    of the connection, [execute_sql] returns, and the file holds what it
    held. *)
Lemma delete_is_not_committed :
  files world0 !! data_db = Some sample_db
  /\ prepare sample_db delete_all = Ok (Some (Delete (py "Students") None), [])
  /\ run (Delete (py "Students") None) sample_db (noise world0)
     = ([], [(py "Students", {| columns := columns students; rows := [] |})], None)
  /\ fst (execute_sql delete_all data_db world0) = Returned []
  /\ files (snd (execute_sql delete_all data_db world0)) = files world0.
Proof.
  repeat split; vm_compute; reflexivity.
Qed.

Lemma execute_sql_raise_leaves_connection_open_witness :
  openable world0 data_db = true
  /\ fails (file_db world0 data_db) (noise world0) misspelt misspelt_error
  /\ exists w',
       execute_sql misspelt data_db world0 = (Raised (Failure misspelt_error), w')
       /\ (exists c, conns w' !! next_handle world0 = Some c /\ conn_path c = data_db)
       /\ (exists evs, trace w' = trace world0 ++ Connect data_db (next_handle world0) :: evs
                       /\ forallb (fun ev => negb (is_close ev)) evs = true).
Proof.
  assert (Hf : fails (file_db world0 data_db) (noise world0) misspelt misspelt_error).
  { apply fails_prepare. vm_compute. reflexivity. }
  split; [reflexivity|]. split; [exact Hf|].
  exact (execute_sql_raise_leaves_connection_open misspelt data_db world0 misspelt_error
           eq_refl Hf).
Defined.

Lemma execute_sql_returns_rows_witness :
  openable world0 data_db = true
  /\ succeeds (file_db world0 data_db) (noise world0) mcom_query [asha] sample_db
  /\ exists w',
       execute_sql mcom_query data_db world0 = (Returned [asha], w')
       /\ trace w' = trace world0 ++ full_call_sequence data_db (next_handle world0) mcom_query
       /\ conns w' !! next_handle world0 = None
       /\ next_handle w' = S (next_handle world0).
Proof.
  assert (Hs : succeeds (file_db world0 data_db) (noise world0) mcom_query [asha]
                 sample_db).
  { apply (@succeeds_run engine (file_db world0 data_db) (noise world0) mcom_query
             (SelectAll (py "Students") (Some (py "class", VText (py "MCom")))) []);
      vm_compute; reflexivity. }
  split; [reflexivity|]. split; [exact Hs|].
  exact (execute_sql_returns_rows mcom_query data_db world0 [asha] sample_db eq_refl Hs).
Defined.

Lemma page_query_catches_exceptions_witness :
  button_pressed (widgets world_quota) = true
  /\ text_input (widgets world_quota) <> []
  /\ step_raises world_quota (Failure quota) (asked question (page_opened world_quota))
  /\ exists err,
       Failure quota = Failure err
       /\ page_query world_quota
          = (Returned tt,
             record (StError ([10060] ++ py " Error: " ++ error_str err))
               (asked question (page_opened world_quota))).
Proof.
  assert (Hs : step_raises world_quota (Failure quota)
                 (asked question (page_opened world_quota))).
  { apply translation_raises. apply get_sql_query_spec. }
  assert (Hq : text_input (widgets world_quota) <> []) by discriminate.
  split; [reflexivity|]. split; [exact Hq|]. split; [exact Hs|].
  exact (page_query_catches_exceptions world_quota (Failure quota) _ eq_refl Hq Hs).
Defined.

Lemma missing_key_stops_before_configure_witness :
  environ world0 !! py "GOOGLE_API_KEY" = None
  /\ dotenv_file world0 !! py "GOOGLE_API_KEY" = None
  /\ exists w',
       script world0 = (Raised StopException, w')
       /\ trace w' = trace world0 ++
            [LoadDotenv;
             StError ([10060] ++ py " GOOGLE_API_KEY not found in .env file");
             StStop]
       /\ forallb (fun ev => negb (is_external ev))
            (drop (length (trace world0)) (trace w')) = true
       /\ requests w' = requests world0.
Proof.
  split; [reflexivity|]. split; [reflexivity|].
  apply (missing_key_stops_before_configure world0); reflexivity.
Defined.




Lemma several_statements_raise_witness :
  prepare (file_db world0 data_db) delete_then_drop
  = Ok (Some (Delete (py "Students") None), py " DROP TABLE Students;")
  /\ lstrip_sql (py " DROP TABLE Students;") <> []
  /\ (exists e w',
        execute_sql delete_then_drop data_db world0 = (Raised (Failure e), w')
        /\ statements_run w' = statements_run world0
        /\ files w' = files world0
        /\ (openable world0 data_db = true -> e = one_statement_only))
  /\ (forall sql' path' (w0 : world),
        (statements_run (snd (execute_sql sql' path' w0)) <= S (statements_run w0))%nat).
Proof.
  assert (Hp : prepare (file_db world0 data_db) delete_then_drop
               = Ok (Some (Delete (py "Students") None), py " DROP TABLE Students;"))
    by (vm_compute; reflexivity).
  assert (Ht : lstrip_sql (py " DROP TABLE Students;") <> []) by (vm_compute; discriminate).
  split; [exact Hp|]. split; [exact Ht|].
  exact (several_statements_raise delete_then_drop data_db world0 _ _ Hp Ht).
Defined.

Lemma empty_question_runs_nothing_witness :
  (text_input (widgets world_idle) = [] \/ button_pressed (widgets world_idle) = false)
  /\ page_query world_idle = (Returned tt, page_opened world_idle)
  /\ trace (page_opened world_idle) = trace world_idle ++ page_query_widgets
  /\ forallb (fun ev => negb (is_external ev)) page_query_widgets = true
  /\ requests (page_opened world_idle) = requests world_idle
  /\ files (page_opened world_idle) = files world_idle
  /\ conns (page_opened world_idle) = conns world_idle.
Proof.
  split; [left; reflexivity|].
  apply (empty_question_runs_nothing world_idle). left. reflexivity.
Defined.


(** The whole page on the sample file: the count is shown in the table. *)
Example page_query_shows_count :
  fst (page_query world0) = Returned tt
  /\ last (trace (snd (page_query world0))) = Some (StTable [[VInt 2]]).
Proof. split; vm_compute; reflexivity. Qed.

(** After a caught error the page works again: the endpoint fails the first
    request, the page shows the error; on the next run it shows the count. *)
Example page_query_retry :
  fst (page_query world_flaky) = Returned tt
  /\ last (trace (snd (page_query world_flaky)))
     = Some (StError ([10060] ++ py " Error: 429 quota exceeded"))
  /\ fst (page_query (snd (page_query world_flaky))) = Returned tt
  /\ last (trace (snd (page_query (snd (page_query world_flaky)))))
     = Some (StTable [[VInt 2]]).
Proof. repeat split; vm_compute; reflexivity. Qed.

(** ** Concrete runs of the further properties *)

Lemma get_sql_query_plain_reply_witness :
  answers world_plain question count_query
  /\ contains fence count_query = false
  /\ get_sql_query question world_plain
     = (Returned (strip count_query), asked question world_plain).
Proof.
  split; [reflexivity|]. split; [reflexivity|].
  apply (get_sql_query_plain_reply question count_query world_plain); reflexivity.
Defined.

Lemma get_sql_query_fenced_reply_witness :
  answers world0 question (fenced_response (py "sql") count_query)
  /\ (backtick ∉ py "sql") /\ (backtick ∉ count_query)
  /\ get_sql_query question world0
     = (Returned (strip (without_sql (py "sql") ++ [newline] ++ count_query)),
        asked question world0)
  /\ (py "sql" = py "sql" ->
      strip (without_sql (py "sql") ++ [newline] ++ count_query) = strip count_query)
  /\ (startswith (py "sql") (py "sql") = false -> without_sql (py "sql") = py "sql").
Proof.
  assert (Ht : backtick ∉ py "sql").
  { intros Hin. apply list_elem_of_In in Hin. vm_compute in Hin. intuition discriminate. }
  assert (Hb : backtick ∉ count_query).
  { intros Hin. apply list_elem_of_In in Hin. vm_compute in Hin. intuition discriminate. }
  split; [reflexivity|]. split; [exact Ht|]. split; [exact Hb|].
  exact (get_sql_query_fenced_reply question (py "sql") count_query world0 eq_refl Ht Hb).
Defined.

Lemma get_sql_query_clean_again_witness :
  answers world0 question fenced_count
  /\ get_sql_query question world0 = (Returned count_query, asked question world0)
  /\ answers world_plain question count_query
  /\ get_sql_query question world_plain = (Returned count_query, asked question world_plain).
Proof.
  assert (Hg : get_sql_query question world0 = (Returned count_query, asked question world0)).
  { assert (Ht : translation world0 question = Returned count_query)
      by (vm_compute; reflexivity).
    now rewrite get_sql_query_spec, Ht. }
  split; [reflexivity|]. split; [exact Hg|]. split; [reflexivity|].
  exact (get_sql_query_clean_again question fenced_count count_query
           world0 _ world_plain eq_refl Hg eq_refl).
Defined.

Lemma get_sql_query_one_request_witness :
  get_sql_query question world_quota
  = (Raised (Failure quota), asked question world_quota)
  /\ trace (asked question world_quota)
     = trace world_quota ++ [GenerateContent (PROMPT ++ py "
Question: " ++ question)]
  /\ requests (asked question world_quota) = S (requests world_quota)
  /\ files (asked question world_quota) = files world_quota
  /\ conns (asked question world_quota) = conns world_quota
  /\ (forall e,
        genai_service world_quota (requests world_quota) (request_for question) = Failed e ->
        Raised (Failure quota) = Raised (A := str) (Failure e))
  /\ (forall e,
        genai_service world_quota (requests world_quota) (request_for question)
        = Ok {| response_text := Failed e |} ->
        Raised (Failure quota) = Raised (A := str) (Failure e)).
Proof.
  assert (Hg : get_sql_query question world_quota
               = (Raised (Failure quota), asked question world_quota)).
  { apply get_sql_query_spec. }
  split; [exact Hg|].
  exact (get_sql_query_one_request question world_quota _ _ Hg).
Defined.



(** On a path that cannot be opened, nothing is left behind. *)
Example execute_sql_unopenable :
  execute_sql count_query data_db world_locked
  = (Raised (Failure unable_to_open), refused data_db world_locked)
  /\ conns (refused data_db world_locked) = conns world_locked
  /\ next_handle (refused data_db world_locked) = next_handle world_locked.
Proof. repeat split; reflexivity. Qed.

Lemma page_query_shows_result_witness :
  button_pressed (widgets world0) = true
  /\ text_input (widgets world0) <> []
  /\ translation world0 (text_input (widgets world0)) = Returned count_query
  /\ openable world0 (py "data.db") = true
  /\ succeeds (file_db world0 (py "data.db")) (noise world0) count_query [[VInt 2]]
       sample_db
  /\ exists w',
       page_query world0 = (Returned tt, w')
       /\ trace w' = trace world0
            ++ statement_shown (text_input (widgets world0)) count_query
            ++ full_call_sequence (py "data.db") (next_handle world0) count_query
            ++ [StSubheader (py "Query Result:"); StTable [[VInt 2]]].
Proof.
  assert (Hq : text_input (widgets world0) <> []) by discriminate.
  assert (Ht : translation world0 (text_input (widgets world0)) = Returned count_query)
    by (vm_compute; reflexivity).
  assert (Hs : succeeds (file_db world0 (py "data.db")) (noise world0) count_query
                 [[VInt 2]] sample_db).
  { apply (@succeeds_run engine (file_db world0 (py "data.db")) (noise world0) count_query
             (SelectCount (py "Students") None) []); vm_compute; reflexivity. }
  split; [reflexivity|]. split; [exact Hq|]. split; [exact Ht|].
  split; [reflexivity|]. split; [exact Hs|].
  exact (page_query_shows_result world0 count_query [[VInt 2]] sample_db
           eq_refl Hq Ht eq_refl Hs).
Defined.

Lemma page_query_translation_error_witness :
  button_pressed (widgets world_quota) = true
  /\ text_input (widgets world_quota) <> []
  /\ translation world_quota (text_input (widgets world_quota)) = Raised (Failure quota)
  /\ exists w',
       page_query world_quota = (Returned tt, w')
       /\ trace w' = trace world_quota ++ page_query_widgets
            ++ [GenerateContent (request_for (text_input (widgets world_quota)));
                StError (error_message (Failure quota))]
       /\ files w' = files world_quota /\ conns w' = conns world_quota
       /\ next_handle w' = next_handle world_quota
       /\ statements_run w' = statements_run world_quota.
Proof.
  assert (Hq : text_input (widgets world_quota) <> []) by discriminate.
  split; [reflexivity|]. split; [exact Hq|]. split; [reflexivity|].
  exact (page_query_translation_error world_quota (Failure quota) eq_refl Hq eq_refl).
Defined.

Lemma page_query_execution_error_witness :
  button_pressed (widgets world_misspelt) = true
  /\ text_input (widgets world_misspelt) <> []
  /\ translation world_misspelt (text_input (widgets world_misspelt)) = Returned misspelt
  /\ openable world_misspelt (py "data.db") = true
  /\ fails (file_db world_misspelt (py "data.db")) (noise world_misspelt) misspelt
       misspelt_error
  /\ exists w' evs,
       page_query world_misspelt = (Returned tt, w')
       /\ trace w' = trace world_misspelt
            ++ statement_shown (text_input (widgets world_misspelt)) misspelt
            ++ Connect (py "data.db") (next_handle world_misspelt) :: evs
            ++ [StError ([10060] ++ py " Error: " ++ error_str misspelt_error)]
       /\ forallb (fun ev => negb (is_close ev)) evs = true
       /\ (exists c, conns w' !! next_handle world_misspelt = Some c
                     /\ conn_path c = py "data.db")
       /\ (files w' = files world_misspelt
           \/ exists st tail rows d',
                is_dml misspelt = false
                /\ prepare (file_db world_misspelt (py "data.db")) misspelt
                   = Ok (Some st, tail)
                /\ run st (file_db world_misspelt (py "data.db")) (noise world_misspelt)
                   = (rows, d', Some misspelt_error)
                /\ files w' = <[py "data.db" := d']> (files world_misspelt))
       /\ (is_dml misspelt = true -> files w' = files world_misspelt).
Proof.
  assert (Hq : text_input (widgets world_misspelt) <> []) by discriminate.
  assert (Ht : translation world_misspelt (text_input (widgets world_misspelt))
               = Returned misspelt) by (vm_compute; reflexivity).
  assert (Hf : fails (file_db world_misspelt (py "data.db")) (noise world_misspelt)
                 misspelt misspelt_error).
  { apply fails_prepare. vm_compute. reflexivity. }
  split; [reflexivity|]. split; [exact Hq|]. split; [exact Ht|].
  split; [reflexivity|]. split; [exact Hf|].
  exact (page_query_execution_error world_misspelt misspelt misspelt_error
           eq_refl Hq Ht eq_refl Hf).
Defined.

Lemma page_query_connect_error_witness :
  button_pressed (widgets world_locked) = true
  /\ text_input (widgets world_locked) <> []
  /\ translation world_locked (text_input (widgets world_locked)) = Returned count_query
  /\ openable world_locked (py "data.db") = false
  /\ exists w',
       page_query world_locked = (Returned tt, w')
       /\ trace w' = trace world_locked
            ++ statement_shown (text_input (widgets world_locked)) count_query
            ++ [ConnectFailed (py "data.db");
                StError ([10060] ++ py " Error: unable to open database file")]
       /\ conns w' = conns world_locked
       /\ next_handle w' = next_handle world_locked
       /\ files w' = files world_locked
       /\ statements_run w' = statements_run world_locked.
Proof.
  assert (Hq : text_input (widgets world_locked) <> []) by discriminate.
  assert (Ht : translation world_locked (text_input (widgets world_locked))
               = Returned count_query) by (vm_compute; reflexivity).
  split; [reflexivity|]. split; [exact Hq|]. split; [exact Ht|]. split; [reflexivity|].
  exact (page_query_connect_error world_locked count_query eq_refl Hq Ht eq_refl).
Defined.

Lemma main_home_about_quiet_witness :
  (radio_choice (widgets world_home) = py "Home"
   \/ radio_choice (widgets world_home) = py "About")
  /\ exists w',
       main world_home = (Returned tt, w')
       /\ quiet (new_events world_home w') = true
       /\ requests w' = requests world_home
       /\ files w' = files world_home
       /\ conns w' = conns world_home
       /\ next_handle w' = next_handle world_home.
Proof.
  split; [left; reflexivity|].
  apply (main_home_about_quiet world_home). left. reflexivity.
Defined.

Lemma script_configures_with_key_witness :
  secret <> []
  /\ (environ world_key !! py "GOOGLE_API_KEY" = Some secret
      \/ (environ world_key !! py "GOOGLE_API_KEY" = None
          /\ dotenv_file world_key !! py "GOOGLE_API_KEY" = Some secret))
  /\ script world_key = main (configured secret world_key)
  /\ trace (configured secret world_key)
     = trace world_key
       ++ [LoadDotenv; Configure secret; GenerativeModel (py "gemini-1.5-flash")].
Proof.
  assert (Hk : secret <> []) by discriminate.
  assert (He : environ world_key !! py "GOOGLE_API_KEY" = Some secret)
    by (vm_compute; reflexivity).
  split; [exact Hk|]. split; [left; exact He|].
  exact (script_configures_with_key world_key secret Hk (or_introl He)).
Defined.

Lemma script_empty_key_stops_witness :
  (environ world_empty_key !! py "GOOGLE_API_KEY" = Some []
   \/ (environ world_empty_key !! py "GOOGLE_API_KEY" = None
       /\ dotenv_file world_empty_key !! py "GOOGLE_API_KEY" = Some []))
  /\ script world_empty_key = (Raised StopException, stopped_without_key world_empty_key)
  /\ quiet (new_events world_empty_key (stopped_without_key world_empty_key)) = true.
Proof.
  assert (He : environ world_empty_key !! py "GOOGLE_API_KEY" = Some [])
    by (vm_compute; reflexivity).
  split; [left; exact He|].
  exact (script_empty_key_stops world_empty_key (or_introl He)).
Defined.

Lemma get_sql_query_keeps_text_before_fence_witness :
  answers world_preamble question (preamble ++ fenced_response (py "sql") count_query)
  /\ (forall c, head preamble = Some c -> isspace c = false)
  /\ (backtick ∉ preamble) /\ (backtick ∉ py "sql") /\ (backtick ∉ count_query)
  /\ get_sql_query question world_preamble
     = (Returned (strip (preamble ++ without_sql (py "sql") ++ [newline] ++ count_query)),
        asked question world_preamble).
Proof.
  assert (Hh : forall c, head preamble = Some c -> isspace c = false).
  { intros c [= <-]. reflexivity. }
  assert (Hp : backtick ∉ preamble).
  { intros Hin. apply list_elem_of_In in Hin. vm_compute in Hin. intuition discriminate. }
  assert (Ht : backtick ∉ py "sql").
  { intros Hin. apply list_elem_of_In in Hin. vm_compute in Hin. intuition discriminate. }
  assert (Hb : backtick ∉ count_query).
  { intros Hin. apply list_elem_of_In in Hin. vm_compute in Hin. intuition discriminate. }
  split; [reflexivity|]. split; [exact Hh|]. split; [exact Hp|].
  split; [exact Ht|]. split; [exact Hb|].
  exact (get_sql_query_keeps_text_before_fence question preamble (py "sql") count_query
           world_preamble eq_refl Hh Hp Ht Hb).
Defined.


(** The misspelt statement leaves its connection behind, and a second run
    leaves another. *)
Example page_query_leaks_connections :
  conns world_misspelt = ∅
  /\ conns (snd (page_query world_misspelt)) !! 0%nat = Some (fresh_connection data_db)
  /\ conns (snd (page_query (snd (page_query world_misspelt)))) !! 0%nat
     = Some (fresh_connection data_db)
  /\ conns (snd (page_query (snd (page_query world_misspelt)))) !! 1%nat
     = Some (fresh_connection data_db).
Proof. repeat split; vm_compute; reflexivity. Qed.

(** The sentence in front of the fence is part of the statement that is
    run, which the engine refuses. *)
Example preamble_reaches_the_engine :
  fst (get_sql_query question world_preamble)
  = Returned (py "Here is the query:
SELECT COUNT(*) FROM Students;")
  /\ last (trace (snd (page_query world_preamble)))
     = Some (StError ([10060] ++ py " Error: near " ++ [34] ++ py "Here" ++ [34]
                      ++ py ": syntax error")).
Proof. split; vm_compute; reflexivity. Qed.
